(** * CustomDockerProfilesSpawner (wrapspawner/customwrap.py)

    A shallow embedding of the profile-selecting wrap spawner: the profile
    registry with its image discovery, the GPU sidecar probe, the HTML form
    renderer and the selection controller with its persisted state.

    Python objects that the code mutates through more than one name (the
    option dictionaries of the profile tuples, [self.child_config]) live in
    a store and are named by references; everything else is a value.
    Exceptions are results; attribute writes before a raise stay written. *)

From Stdlib Require Import String Ascii List ZArith Bool Lia.
From stdpp Require Import base list strings.
Import ListNotations.
Local Open Scope string_scope.

(** ** Python values, exceptions, results *)

Set Warnings "-register-all".

Inductive pyval : Type :=
| VNone
| VBool (b : bool)
| VInt (z : Z)
| VStr (s : string)
| VList (l : list pyval)
| VTuple (l : list pyval)
| VDict (d : list (string * pyval))
| VMethod (qualname : string).

Inductive exn : Type :=
| TypeError
| KeyError (key : pyval)
| IndexError
| NameError
| ImportError
| AttributeError
| ValueError
| TraitError
| URLError
| Exception_ (msg : string)
| OtherError (name : string)
| NotModelled.

Inductive result (A : Type) : Type :=
| Ok (a : A)
| Raise (e : exn).
Arguments Ok {A} a.
Arguments Raise {A} e.

Definition rbind {A B} (r : result A) (k : A -> result B) : result B :=
  match r with Ok a => k a | Raise e => Raise e end.

Declare Scope result_scope.
Delimit Scope result_scope with result.
Notation "'let?' x ':=' r 'in' k" := (rbind r (fun x => k))
  (at level 10, x pattern, r at level 100, k at level 200) : result_scope.
Local Open Scope result_scope.

(** [try: body except E: handler], for a body without effects on the store. *)
Definition try_except {A} (body : result A) (catches : exn -> bool)
    (handler : result A) : result A :=
  match body with
  | Ok a => Ok a
  | Raise e => if catches e then handler else Raise e
  end.

Definition is_KeyError (e : exn) : bool :=
  match e with KeyError _ => true | _ => false end.
Definition is_ImportError (e : exn) : bool :=
  match e with ImportError => true | _ => false end.
Definition is_NameError (e : exn) : bool :=
  match e with NameError => true | _ => false end.
Definition is_URLError (e : exn) : bool :=
  match e with URLError => true | _ => false end.

(** ** Dictionaries: insertion-ordered, one binding per key *)

Abbreviation dict_of V := (list (string * V)) (only parsing).
Abbreviation dict := (list (string * pyval)) (only parsing).

Fixpoint dict_get {V} (k : string) (d : dict_of V) : option V :=
  match d with
  | [] => None
  | (k', v) :: d' => if String.eqb k' k then Some v else dict_get k d'
  end.

(** [d[k] = v]: overwrite in place, or append a new binding. *)
Fixpoint dict_set {V} (k : string) (v : V) (d : dict_of V) : dict_of V :=
  match d with
  | [] => [(k, v)]
  | (k', v') :: d' =>
      if String.eqb k' k then (k, v) :: d' else (k', v') :: dict_set k v d'
  end.

(** [d.update(other)] *)
Definition dict_update {V} (d other : dict_of V) : dict_of V :=
  fold_left (fun acc kv => dict_set (fst kv) (snd kv) acc) other d.

(** [d.get(k, default)] *)
Definition dict_get_default {V} (k : string) (default : V) (d : dict_of V)
    : V :=
  match dict_get k d with Some v => v | None => default end.

Definition dict_mem {V} (k : string) (d : dict_of V) : bool :=
  match dict_get k d with Some _ => true | None => false end.

(** [d[k]] on a dictionary. *)
Definition dict_getitem (k : string) (d : dict) : result pyval :=
  match dict_get k d with
  | Some v => Ok v
  | None => Raise (KeyError (VStr k))
  end.

(** ** Subscripts and iteration on arbitrary values *)

Fixpoint string_chars (s : string) : list string :=
  match s with
  | EmptyString => []
  | String c s' => String c EmptyString :: string_chars s'
  end.

(** [seq[i]] on a Python list held as a Rocq list. *)
Definition seq_getitem {A} (l : list A) (i : nat) : result A :=
  match l !! i with
  | Some a => Ok a
  | None => Raise IndexError
  end.

(** [o[i]] for a literal non-negative integer [i]. *)
Definition py_getitem (o : pyval) (i : nat) : result pyval :=
  match o with
  | VList l | VTuple l => seq_getitem l i
  | VStr s => seq_getitem (map VStr (string_chars s)) i
  | VDict d => Raise (KeyError (VInt (Z.of_nat i)))
  | VNone | VBool _ | VInt _ | VMethod _ => Raise TypeError
  end.

(** [o["k"]] for a literal string key. *)
Definition py_getitem_str (o : pyval) (k : string) : result pyval :=
  match o with
  | VDict d => dict_getitem k d
  | _ => Raise TypeError
  end.

(** [for x in o] *)
Definition py_iter (o : pyval) : result (list pyval) :=
  match o with
  | VList l | VTuple l => Ok l
  | VStr s => Ok (map VStr (string_chars s))
  | VDict d => Ok (map (fun kv => VStr (fst kv)) d)
  | VNone | VBool _ | VInt _ | VMethod _ => Raise TypeError
  end.

(** ** Strings *)

Definition nl : ascii := "010"%char.
Definition dquote : string := String "034"%char EmptyString.
Definition newline : string := String nl EmptyString.

(** [s.split(sep)] for a one-character separator: never empty. *)
Fixpoint split_on (sep : ascii) (s : string) : list string :=
  match s with
  | EmptyString => [EmptyString]
  | String c s' =>
      if Ascii.eqb c sep then EmptyString :: split_on sep s'
      else match split_on sep s' with
           | [] => [String c EmptyString]
           | w :: ws => String c w :: ws
           end
  end.

(** [vol.split(":")] needs a [str]. *)
Definition py_split_colon (o : pyval) : result (list string) :=
  match o with
  | VStr s => Ok (split_on ":"%char s)
  | _ => Raise AttributeError
  end.

Fixpoint ends_with (suffix s : string) : bool :=
  String.eqb suffix s ||
  match s with
  | EmptyString => false
  | String _ s' => ends_with suffix s'
  end.

Fixpoint has_newline (s : string) : bool :=
  match s with
  | EmptyString => false
  | String c s' => Ascii.eqb c nl || has_newline s'
  end.

Fixpoint strip_final_newline (s : string) : string :=
  match s with
  | EmptyString => EmptyString
  | String c EmptyString => if Ascii.eqb c nl then EmptyString else s
  | String c s' => String c (strip_final_newline s')
  end.

Fixpoint concat_strings (l : list string) : string :=
  match l with
  | [] => EmptyString
  | s :: l' => s +:+ concat_strings l'
  end.

(** *** [str.format] with keyword arguments

    The replacement fields the model covers are plain keyword names.
    [{{] and [}}] are escaped braces; a lone [}] or an unclosed [{] is a
    [ValueError]; an empty or numeric field has no positional argument to
    take ([IndexError]); an unknown name is a [KeyError].  A field with a
    conversion, a format specification, an attribute or an index
    ([! : . []) is outside the model and yields [NotModelled].  Values
    arrive already converted by [str()]. *)

Definition is_digit (c : ascii) : bool :=
  let n := nat_of_ascii c in (48 <=? n)%nat && (n <=? 57)%nat.

Fixpoint all_digits (s : string) : bool :=
  match s with
  | EmptyString => true
  | String c s' => is_digit c && all_digits s'
  end.

Definition field_special (c : ascii) : bool :=
  Ascii.eqb c "!" || Ascii.eqb c ":" || Ascii.eqb c "." || Ascii.eqb c "["
  || Ascii.eqb c "{".

Definition lookup_field (name : string) (kw : dict_of string)
    : result string :=
  if all_digits name then Raise IndexError
  else match dict_get name kw with
       | Some v => Ok v
       | None => Raise (KeyError (VStr name))
       end.

(** [field = None]: reading literal text; [field = Some n]: inside a
    replacement field whose name read so far is [n]. *)
Fixpoint format_from (kw : dict_of string) (tpl : string)
    (field : option string) : result string :=
  match field with
  | None =>
      match tpl with
      | EmptyString => Ok EmptyString
      | String c rest =>
          if Ascii.eqb c "{" then
            match rest with
            | String c2 rest2 =>
                if Ascii.eqb c2 "{"
                then let? r := format_from kw rest2 None in Ok (String "{" r)
                else format_from kw rest (Some EmptyString)
            | EmptyString => Raise ValueError
            end
          else if Ascii.eqb c "}" then
            match rest with
            | String c2 rest2 =>
                if Ascii.eqb c2 "}"
                then let? r := format_from kw rest2 None in Ok (String "}" r)
                else Raise ValueError
            | EmptyString => Raise ValueError
            end
          else let? r := format_from kw rest None in Ok (String c r)
      end
  | Some name =>
      match tpl with
      | EmptyString => Raise ValueError
      | String c rest =>
          if Ascii.eqb c "}" then
            let? v := lookup_field name kw in
            let? r := format_from kw rest None in
            Ok (v +:+ r)
          else if field_special c then Raise NotModelled
          else format_from kw rest (Some (name +:+ String c EmptyString))
      end
  end.

Definition py_format (tpl : string) (kw : dict_of string) : result string :=
  format_from kw tpl None.

(** A list comprehension whose element expression may raise. *)
Fixpoint map_result {A B} (f : A -> result B) (l : list A)
    : result (list B) :=
  match l with
  | [] => Ok []
  | a :: l' => let? b := f a in let? bs := map_result f l' in Ok (b :: bs)
  end.

(** ** The spawner object

    The option dictionaries of the profile tuples and [child_config] are
    references into [heap]; [child_profile] and [profile_image] are
    [Unicode()] traits, so they only ever hold strings. *)

Abbreviation ref := nat (only parsing).

(** The third component of a profile tuple: a class object, or the dotted
    name of a class.  The tuples that [_docker_profile] builds hold the
    name (line 242).  The entries of [default_profiles] hold classes: the
    trait declares the component as [Type(Spawner)] (line 117), which
    hands out a class and resolves a dotted name by importing it when the
    value is set or, for the declared default, first read. *)
Inductive spawner_type : Type :=
| SpawnerClass (qualname : string)
| SpawnerName (dotted : string).

(** [str()] of the third component of a profile tuple. *)
Definition str_of_type (t : spawner_type) : string :=
  match t with
  | SpawnerClass q => "<class '" +:+ q +:+ "'>"
  | SpawnerName d => d
  end.

(** A profile tuple: [p[0]], [p[1]], [p[2]], [p[3]]. *)
Record profile : Type := mkProfile {
  p_display : string;
  p_key : string;
  p_class : spawner_type;
  p_options : ref
}.

(** An image tuple: [p[0]], [p[1]]. *)
Record image : Type := mkImage {
  i_display : string;
  i_reference : string
}.

(** Modelled from the spec: the fields [child_class] and [child_config]
    are declared by the parent class [WrapSpawner] (wrapspawner.py), which
    is not part of the sources at hand; following section 6 of the
    specification they are two plain fields, the child backend type and the
    child backend configuration mapping, and an assignment stores the
    object it is given. *)
Record spawner : Type := mkSpawner {
  heap : list dict;
  child_class : spawner_type;
  child_config : ref;
  child_profile : string;
  profile_image : string
}.

Definition M (A : Type) : Type := spawner -> result A * spawner.

Definition ret {A} (a : A) : M A := fun st => (Ok a, st).
Definition bind {A B} (m : M A) (k : A -> M B) : M B :=
  fun st =>
    match m st with
    | (Ok a, st') => k a st'
    | (Raise e, st') => (Raise e, st')
    end.
Definition lift {A} (r : result A) : M A := fun st => (r, st).

Declare Scope py_scope.
Delimit Scope py_scope with py.
Notation "'let*' x ':=' m 'in' k" := (bind m (fun x => k))
  (at level 10, x pattern, m at level 100, k at level 200) : py_scope.
Notation "m ';;' k" := (bind m (fun _ => k))
  (at level 100, k at level 200, right associativity) : py_scope.
Local Open Scope py_scope.

(** [try: body except E: handler]; what the body wrote before raising
    stays written. *)
Definition try_except_M {A} (body : M A) (catches : exn -> bool) (handler : M A)
    : M A :=
  fun st =>
    match body st with
    | (Ok a, st') => (Ok a, st')
    | (Raise e, st') => if catches e then handler st' else (Raise e, st')
    end.

Fixpoint map_M {A B} (f : A -> M B) (l : list A) : M (list B) :=
  match l with
  | [] => ret []
  | a :: l' => let* b := f a in let* bs := map_M f l' in ret (b :: bs)
  end.

(** A new dictionary object. *)
Definition alloc (d : dict) : M ref :=
  fun st =>
    (Ok (length (heap st)),
     mkSpawner (heap st ++ [d]) (child_class st) (child_config st)
               (child_profile st) (profile_image st)).

(** [r[k] = v] on the dictionary object [r]. *)
Definition dict_setitem (r : ref) (k : string) (v : pyval) : M unit :=
  fun st =>
    (Ok tt,
     mkSpawner (alter (dict_set k v) r (heap st)) (child_class st)
               (child_config st) (child_profile st) (profile_image st)).

Definition set_child_class (c : spawner_type) : M unit :=
  fun st =>
    (Ok tt, mkSpawner (heap st) c (child_config st) (child_profile st)
                      (profile_image st)).

Definition set_child_config (r : ref) : M unit :=
  fun st =>
    (Ok tt, mkSpawner (heap st) (child_class st) r (child_profile st)
                      (profile_image st)).

Definition get_child_config : M ref := fun st => (Ok (child_config st), st).
Definition get_child_profile : M string :=
  fun st => (Ok (child_profile st), st).
Definition get_profile_image : M string :=
  fun st => (Ok (profile_image st), st).

(** Assignment to a [Unicode()] trait: anything but a [str] is refused. *)
Definition set_child_profile (v : pyval) : M unit :=
  fun st =>
    match v with
    | VStr s =>
        (Ok tt, mkSpawner (heap st) (child_class st) (child_config st) s
                          (profile_image st))
    | _ => (Raise TraitError, st)
    end.

Definition set_profile_image (v : pyval) : M unit :=
  fun st =>
    match v with
    | VStr s =>
        (Ok tt, mkSpawner (heap st) (child_class st) (child_config st)
                          (child_profile st) s)
    | _ => (Raise TraitError, st)
    end.

(** ** Configuration and surroundings

    The traits declared with [config=True], the attributes the hub sets
    ([groups], [user.name]) and the two services the code talks to.

    [docker] is the module-level name after the guarded import of lines
    26-29; when bound, it carries what [docker.from_env().images.list()]
    does: an exception, or the images, each given by its list of tags.
    [sidecar] is the outcome of lines 223-225 (open the URL, read, decode,
    parse as JSON): an exception, or the parsed body.  Both stay the same
    for the duration of one operation of the spawner.

    [default_profiles] is the value that reading the trait yields, after
    the trait has validated it. *)

Inductive docker_module : Type :=
| DockerNotImported
| DockerImported (images_list : result (list (list string))).

Record environment : Type := mkEnvironment {
  docker : docker_module;
  sidecar : result pyval;
  user_name : string;
  groups : list string;
  default_profiles : list profile;
  first_template : string;
  form_template : string;
  input_image_template : string;
  input_template : string;
  group_images : dict_of (list image);
  default_profile_image : list image;
  docker_spawner_args : dict
}.

(** Lines 26-29: [try: import docker / except ImportError: pass], for a
    package that is installed (with its client) or not. *)
Definition import_docker (package : option (result (list (list string))))
    : result docker_module :=
  try_except
    (match package with
     | Some client => Ok (DockerImported client)
     | None => Raise ImportError
     end)
    is_ImportError
    (Ok DockerNotImported).

(** [jupyterhub_docker_tag_re.match(tag)] for [^.*jupyterhub$]: the dot
    takes no newline and the dollar also stands before a final newline. *)
Definition jupyterhub_docker_tag_re_match (tag : string) : bool :=
  let body := strip_final_newline tag in
  negb (has_newline body) && ends_with "jupyterhub" body.

Definition docker_missing_message : string :=
  "The docker package is not installed and is a dependency for "
  +:+ "DockerProfilesSpawner".

Section Spawner.

Variable env : environment.

(** *** The GPU sidecar probe, lines 221-234 *)

Definition read_only_volumes (vols : list pyval) : result dict :=
  fold_left
    (fun acc vol =>
       let? d := acc in
       let? parts := py_split_colon vol in
       let? host := seq_getitem parts 0 in
       let? parts' := py_split_colon vol in
       let? target := seq_getitem parts' 1 in
       Ok (dict_set host (VStr target) d))
    vols (Ok []).

Definition _nvidia_args : result dict :=
  try_except
    (let? args := sidecar env in
     let? volumes := py_getitem_str args "Volumes" in
     let? vols := py_iter volumes in
     let? rov := read_only_volumes vols in
     let? driver := py_getitem_str args "VolumeDriver" in
     let? devices := py_getitem_str args "Devices" in
     Ok [("read_only_volumes", VDict rov);
         ("extra_create_kwargs", VDict [("volume_driver", driver)]);
         ("extra_host_config", VDict [("devices", devices)])])
    is_URLError
    (Ok []).

(** *** Image discovery, lines 236-272 *)

(** The dictionary [spawner_args] becomes an object of the store once it
    is complete; nothing else names it before. *)
Definition _docker_profile (nvidia_args : dict) (image : string) : M profile :=
  let spawner_args :=
    [("container_image", VStr image); ("network_name", VStr (user_name env))] in
  let spawner_args := dict_update spawner_args (docker_spawner_args env) in
  let spawner_args := dict_update spawner_args nvidia_args in
  let nvidia_enabled :=
    if (0 <? length nvidia_args)%nat then "w/GPU" else "no GPU" in
  let* r := alloc spawner_args in
  ret (mkProfile ("Docker: (" +:+ nvidia_enabled +:+ "): " +:+ image)
                 ("docker-" +:+ image)
                 (SpawnerName "dockerspawner.SystemUserSpawner")
                 r).

Definition _jupyterhub_docker_tags : result (list string) :=
  try_except
    (let? imgs :=
       match docker env with
       | DockerNotImported => Raise NameError
       | DockerImported images_list => images_list
       end in
     Ok (List.filter jupyterhub_docker_tag_re_match (concat imgs)))
    is_NameError
    (Raise (Exception_ docker_missing_message)).

Definition _docker_profiles : M (list profile) :=
  let* tags := lift _jupyterhub_docker_tags in
  map_M (fun tag =>
           let* nvidia_args := lift _nvidia_args in
           _docker_profile nvidia_args tag)
        tags.

(** The property of line 270; it replaces the trait of line 46. *)
Definition profiles : M (list profile) :=
  let* discovered := _docker_profiles in
  ret (default_profiles env ++ discovered)%list.

(** Line 274: a plain method, called as [self.images(group)]. *)
Definition images (group : string) : list image :=
  if negb (String.eqb group EmptyString)
  then dict_get_default group [] (group_images env)
  else default_profile_image env.

(** The value of the attribute [self.images]: [images] is defined with
    [def] and without [@property], so it is the bound method. *)
Definition self_images : pyval :=
  VMethod "CustomDockerProfilesSpawner.images".

(** *** The selection controller, lines 173-219 *)

(** Both defaults are arguments of [dict.get], so they are evaluated
    whether or not the form holds the field. *)
Definition options_from_form (formdata : dict_of (list pyval)) : M dict :=
  let* ps := profiles in
  let* p0 := lift (seq_getitem ps 0) in
  let* profile :=
    lift (seq_getitem
            (dict_get_default "profile" [VStr (p_key p0)] formdata) 0) in
  let* i0 := lift (py_getitem self_images 0) in
  let* i01 := lift (py_getitem i0 1) in
  let* dockerImage :=
    lift (seq_getitem (dict_get_default "dockerImage" [i01] formdata) 0) in
  ret [("profile", profile); ("dockerImage", dockerImage)].

(** The loop of lines 182-193; [inspect] only prints. *)
Fixpoint select_profile_loop (ps : list profile) (profile image : string)
    : M unit :=
  match ps with
  | [] => ret tt
  | p :: rest =>
      if String.eqb (p_key p) profile then
        set_child_class (p_class p) ;;
        set_child_config (p_options p) ;;
        let* config := get_child_config in
        dict_setitem config "image" (VStr image)
      else select_profile_loop rest profile image
  end.

Definition select_profile (profile image : string) : M unit :=
  let* ps := profiles in
  select_profile_loop ps profile image.

(** [super().construct_child()] belongs to the parent class. *)
Definition construct_child (user_options : dict)
    (super_construct_child : M unit) : M unit :=
  set_child_profile
    (dict_get_default "profile" (VStr EmptyString) user_options) ;;
  set_profile_image
    (dict_get_default "dockerImage" (VStr EmptyString) user_options) ;;
  let* p := get_child_profile in
  let* i := get_profile_image in
  select_profile p i ;;
  super_construct_child.

Definition load_child_class (state : dict) : M unit :=
  try_except_M
    (let* p := lift (dict_getitem "profile" state) in
     set_child_profile p ;;
     let* i := lift (dict_getitem "dockerImage" state) in
     set_profile_image i)
    is_KeyError
    (set_child_profile (VStr EmptyString) ;;
     set_profile_image (VStr EmptyString)) ;;
  let* p := get_child_profile in
  let* i := get_profile_image in
  select_profile p i.

(** *** The form renderer, lines 279-315 *)

(** [dict(display=p[0], key=p[1], type=p[2], first=...)]; [format] applies
    [str()] to the fields it uses, which is done here for [type]. *)
Definition profile_record (p : profile) : dict_of string :=
  [("display", p_display p); ("key", p_key p);
   ("type", str_of_type (p_class p)); ("first", EmptyString)].

Definition image_record (p : image) : dict_of string :=
  [("display", i_display p); ("key", i_reference p); ("first", EmptyString)].

(** [records[0]["first"] = marker] *)
Definition mark_first (marker : string) (records : list (dict_of string))
    : result (list (dict_of string)) :=
  let? r0 := seq_getitem records 0 in
  Ok (<[0 := dict_set "first" marker r0]> records).

(** The two calls of [inspect] (lines 291-292) only print. *)
Definition options_form : M string :=
  let* ps := profiles in
  let temp_keys := map profile_record ps in
  let* temp_keys := lift (mark_first (first_template env) temp_keys) in
  let temp_images :=
    flat_map (fun group => map image_record (images group)) (groups env) in
  let* temp_images :=
    match temp_images with
    | [] => ret temp_images
    | _ :: _ => lift (mark_first (first_template env) temp_images)
    end in
  let* texts := lift (map_result (py_format (input_template env)) temp_keys) in
  let text := concat_strings texts in
  let* textsImages :=
    lift (map_result (py_format (input_image_template env)) temp_images) in
  let textImages := concat_strings textsImages in
  lift (py_format (form_template env)
          [("input_template", text); ("input_image_template", textImages)]).

End Spawner.

(** [super().get_state()] belongs to the parent class; the session-state
    mapping it returns is the parameter [super_state], into which the two
    fields are merged. *)
Definition get_state (super_state : dict) : M dict :=
  let state := super_state in
  let* p := get_child_profile in
  let state := dict_set "profile" (VStr p) state in
  let* i := get_profile_image in
  let state := dict_set "dockerImage" (VStr i) state in
  ret state.

(** [super().clear_state()] belongs to the parent class. *)
Definition clear_state (super_clear_state : M unit) : M unit :=
  super_clear_state ;;
  set_child_profile (VStr EmptyString) ;;
  set_profile_image (VStr EmptyString).

(** ** The declared defaults *)

Definition indent : string := "        ".

(** Lines 97-98 and 105-106. *)
Definition declared_option_template : string :=
  newline +:+ indent +:+ "<option value=" +:+ dquote +:+ "{key}" +:+ dquote
  +:+ " {first}>{display}</option>".

(** Lines 80-89. *)
Definition declared_form_template : string :=
  "<label for=" +:+ dquote +:+ "profile" +:+ dquote
  +:+ ">Select a job profile:</label>" +:+ newline
  +:+ indent +:+ "<select class=" +:+ dquote +:+ "form-control" +:+ dquote
  +:+ " name=" +:+ dquote +:+ "profile" +:+ dquote
  +:+ " required autofocus>" +:+ newline
  +:+ indent +:+ "{input_template}" +:+ newline
  +:+ indent +:+ "</select>" +:+ newline
  +:+ indent +:+ newline
  +:+ indent +:+ "<label for=" +:+ dquote +:+ "profile" +:+ dquote
  +:+ ">Select docker image:</label>" +:+ newline
  +:+ indent +:+ "<select class=" +:+ dquote +:+ "form-control" +:+ dquote
  +:+ " name=" +:+ dquote +:+ "dockerImage" +:+ dquote
  +:+ " required autofocus>" +:+ newline
  +:+ indent +:+ "{input_image_template}" +:+ newline
  +:+ indent +:+ "</select>" +:+ newline
  +:+ indent.

(** The three pieces of the declared form around the two option groups. *)
Definition form_head : string :=
  "<label for=" +:+ dquote +:+ "profile" +:+ dquote
  +:+ ">Select a job profile:</label>" +:+ newline
  +:+ indent +:+ "<select class=" +:+ dquote +:+ "form-control" +:+ dquote
  +:+ " name=" +:+ dquote +:+ "profile" +:+ dquote
  +:+ " required autofocus>" +:+ newline
  +:+ indent.

Definition form_middle : string :=
  newline
  +:+ indent +:+ "</select>" +:+ newline
  +:+ indent +:+ newline
  +:+ indent +:+ "<label for=" +:+ dquote +:+ "profile" +:+ dquote
  +:+ ">Select docker image:</label>" +:+ newline
  +:+ indent +:+ "<select class=" +:+ dquote +:+ "form-control" +:+ dquote
  +:+ " name=" +:+ dquote +:+ "dockerImage" +:+ dquote
  +:+ " required autofocus>" +:+ newline
  +:+ indent.

Definition form_tail : string :=
  newline +:+ indent +:+ "</select>" +:+ newline +:+ indent.

(** One option element as the declared option template writes it. *)
Definition option_element (key first display : string) : string :=
  newline +:+ indent +:+ "<option value=" +:+ dquote +:+ key +:+ dquote
  +:+ " " +:+ first +:+ ">" +:+ display +:+ "</option>".

Definition uses_declared_templates (env : environment) : Prop :=
  form_template env = declared_form_template /\
  input_template env = declared_option_template /\
  input_image_template env = declared_option_template.


(** ** What a registry read leaves behind

    Reading [profiles] only creates dictionary objects; these definitions
    name the profile built for a tag and the store after the read. *)

Definition docker_options (env : environment) (nvidia_args : dict)
    (image : string) : dict :=
  dict_update
    (dict_update
       [("container_image", VStr image); ("network_name", VStr (user_name env))]
       (docker_spawner_args env))
    nvidia_args.

Definition docker_label (nvidia_args : dict) : string :=
  if (0 <? length nvidia_args)%nat then "w/GPU" else "no GPU".

Definition docker_profile_at (nvidia_args : dict) (image : string) (r : ref)
    : profile :=
  mkProfile ("Docker: (" +:+ docker_label nvidia_args +:+ "): " +:+ image)
            ("docker-" +:+ image)
            (SpawnerName "dockerspawner.SystemUserSpawner")
            r.

Fixpoint discovered (nvidia_args : dict) (tags : list string) (base : ref)
    : list profile :=
  match tags with
  | [] => []
  | tag :: tags' =>
      docker_profile_at nvidia_args tag base
      :: discovered nvidia_args tags' (S base)
  end.

Definition grow (extra : list dict) (st : spawner) : spawner :=
  mkSpawner (heap st ++ extra) (child_class st) (child_config st)
            (child_profile st) (profile_image st).

(** The state after a successful match on the profile [p]. *)
Definition selected (p : profile) (image : string) (st : spawner) : spawner :=
  mkSpawner (alter (dict_set "image" (VStr image)) (p_options p) (heap st))
            (p_class p) (p_options p) (child_profile st) (profile_image st).

(** Every way a registry read can end. *)
Definition registry_outcome (env : environment) (st : spawner)
    : result (list profile) * spawner :=
  match _jupyterhub_docker_tags env with
  | Raise e => (Raise e, st)
  | Ok [] => (Ok (default_profiles env), st)
  | Ok (tag :: tags) =>
      match _nvidia_args env with
      | Raise e => (Raise e, st)
      | Ok nv =>
          (Ok (default_profiles env
               ++ discovered nv (tag :: tags) (length (heap st)))%list,
           grow (map (docker_options env nv) (tag :: tags)) st)
      end
  end.

Definition gpu_keys : list string :=
  ["read_only_volumes"; "extra_create_kwargs"; "extra_host_config"].

(** ** Concrete deployments *)

(** What a [Type(Spawner)] component hands out: every static entry holds
    a class. *)
Definition holds_classes (env : environment) : Prop :=
  Forall (fun p => exists q, p_class p = SpawnerClass q)
         (default_profiles env).

(** The declared defaults of the class: lines 116-128, 69-71, 141-165 and
    167-169, for a hub user [alice] with the groups [gs].  The declared
    profile names its class by the dotted name
    [dockerspawner.SystemUserSpawner]; the entry read from the trait holds
    the class that the name imports.  That import needs the packages
    dockerspawner and docker, so in a deployment that runs on the declared
    profiles the module [docker] is bound: [client] is what
    [docker.from_env().images.list()] does there. *)
Definition declared_environment (client : result (list (list string)))
    (s : result pyval) (gs : list string) : environment :=
  {| docker := DockerImported client;
     sidecar := s;
     user_name := "alice";
     groups := gs;
     default_profiles :=
       [mkProfile "Run Docker Image" "singleuser"
          (SpawnerClass "dockerspawner.systemuserspawner.SystemUserSpawner")
          0];
     first_template := "selected";
     form_template := declared_form_template;
     input_image_template := declared_option_template;
     input_template := declared_option_template;
     group_images :=
       [("group_a", [mkImage "base image group_a" "jupyterhub/singleuser"]);
        ("group_b", [mkImage "base image group_b" "jupyterhub/singleuser"])];
     default_profile_image := [mkImage "base" "jupyterhub/singleuser"];
     docker_spawner_args := [] |}.

(** Object 0 is the option dictionary of the declared profile, object 1 the
    initial [child_config]. *)
Definition declared_spawner : spawner :=
  {| heap := [[("image", VStr "sbrambla")]; []];
     child_class := SpawnerClass "jupyterhub.spawner.LocalProcessSpawner";
     child_config := 1;
     child_profile := EmptyString;
     profile_image := EmptyString |}.

(** A deployment without the docker package: the administrator has
    configured [default_profiles] with the one entry of lines 48-55, whose
    class is the imported [LocalProcessSpawner]. *)
Definition local_environment (gs : list string) : environment :=
  {| docker := DockerNotImported;
     sidecar := Raise URLError;
     user_name := "alice";
     groups := gs;
     default_profiles :=
       [mkProfile "Local Notebook Server" "local"
          (SpawnerClass "jupyterhub.spawner.LocalProcessSpawner") 0];
     first_template := "selected";
     form_template := declared_form_template;
     input_image_template := declared_option_template;
     input_template := declared_option_template;
     group_images :=
       [("group_a", [mkImage "base image group_a" "jupyterhub/singleuser"]);
        ("group_b", [mkImage "base image group_b" "jupyterhub/singleuser"])];
     default_profile_image := [mkImage "base" "jupyterhub/singleuser"];
     docker_spawner_args := [] |}.

(** Object 0 is the option dictionary of the local profile, object 1 the
    initial [child_config]. *)
Definition local_spawner : spawner :=
  {| heap := [[("start_timeout", VInt 15); ("http_timeout", VInt 10)]; []];
     child_class := SpawnerClass "jupyterhub.spawner.LocalProcessSpawner";
     child_config := 1;
     child_profile := EmptyString;
     profile_image := EmptyString |}.

(** The registry of the specification's example (section 8, item 6). *)
Definition example_environment : environment :=
  {| docker := DockerImported (Ok []);
     sidecar := Raise URLError;
     user_name := "alice";
     groups := ["group_a"];
     default_profiles :=
       [mkProfile "Local" "local" (SpawnerClass "LocalBackend") 0;
        mkProfile "GPU box" "docker-img1" (SpawnerClass "ContainerBackend") 1];
     first_template := "selected";
     form_template := declared_form_template;
     input_image_template := declared_option_template;
     input_template := declared_option_template;
     group_images :=
       [("group_a", [mkImage "base image group_a" "jupyterhub/singleuser"])];
     default_profile_image := [mkImage "base" "jupyterhub/singleuser"];
     docker_spawner_args := [] |}.

Definition example_spawner : spawner :=
  {| heap := [[]; [("container_image", VStr "img1")]; []];
     child_class := SpawnerClass "LocalBackend";
     child_config := 2;
     child_profile := EmptyString;
     profile_image := EmptyString |}.

(** Two entries under one key, and a docker client with three images. *)
Definition duplicate_environment : environment :=
  {| docker :=
       DockerImported
         (Ok [["hub/jupyterhub"; "hub/other:latest"]; []; ["gpu-jupyterhub"]]);
     sidecar := Raise URLError;
     user_name := "alice";
     groups := [];
     default_profiles :=
       [mkProfile "Local" "local" (SpawnerClass "LocalBackend") 0;
        mkProfile "First" "twice" (SpawnerClass "FirstBackend") 1;
        mkProfile "Second" "twice" (SpawnerClass "SecondBackend") 2];
     first_template := "selected";
     form_template := declared_form_template;
     input_image_template := declared_option_template;
     input_template := declared_option_template;
     group_images := [];
     default_profile_image := [mkImage "base" "jupyterhub/singleuser"];
     docker_spawner_args := [] |}.

Definition duplicate_spawner : spawner :=
  {| heap := [[]; [("a", VInt 1)]; [("b", VInt 2)]; []];
     child_class := SpawnerClass "LocalBackend";
     child_config := 3;
     child_profile := EmptyString;
     profile_image := EmptyString |}.

(** A deployment whose administrator passes host settings to every
    container, with the GPU sidecar down. *)
Definition host_config_environment : environment :=
  {| docker := DockerImported (Ok [["hub/jupyterhub"]]);
     sidecar := Raise URLError;
     user_name := "alice";
     groups := ["group_a"];
     default_profiles :=
       [mkProfile "Run Docker Image" "singleuser"
          (SpawnerClass "dockerspawner.systemuserspawner.SystemUserSpawner")
          0];
     first_template := "selected";
     form_template := declared_form_template;
     input_image_template := declared_option_template;
     input_template := declared_option_template;
     group_images := [];
     default_profile_image := [mkImage "base" "jupyterhub/singleuser"];
     docker_spawner_args :=
       [("extra_host_config", VDict [("network_mode", VStr "host")])] |}.

(** The example registry with one image to discover, and a sidecar port
    that answers something other than JSON: [json.loads] raises
    [JSONDecodeError], a [ValueError]. *)
Definition unparsable_sidecar_environment : environment :=
  {| docker := DockerImported (Ok [["hub/jupyterhub"]]);
     sidecar := Raise ValueError;
     user_name := "alice";
     groups := ["group_a"];
     default_profiles :=
       [mkProfile "Local" "local" (SpawnerClass "LocalBackend") 0;
        mkProfile "GPU box" "docker-img1" (SpawnerClass "ContainerBackend") 1];
     first_template := "selected";
     form_template := declared_form_template;
     input_image_template := declared_option_template;
     input_template := declared_option_template;
     group_images :=
       [("group_a", [mkImage "base image group_a" "jupyterhub/singleuser"])];
     default_profile_image := [mkImage "base" "jupyterhub/singleuser"];
     docker_spawner_args := [] |}.

(** The example registry for a user without images, with a profile
    template that asks for a field the records do not have. *)
Definition unknown_field_environment : environment :=
  {| docker := DockerImported (Ok []);
     sidecar := Raise URLError;
     user_name := "alice";
     groups := ["group_c"];
     default_profiles :=
       [mkProfile "Local" "local" (SpawnerClass "LocalBackend") 0;
        mkProfile "GPU box" "docker-img1" (SpawnerClass "ContainerBackend") 1];
     first_template := "selected";
     form_template := declared_form_template;
     input_image_template := declared_option_template;
     input_template := "<option>{name}</option>";
     group_images :=
       [("group_a", [mkImage "base image group_a" "jupyterhub/singleuser"])];
     default_profile_image := [mkImage "base" "jupyterhub/singleuser"];
     docker_spawner_args := [] |}.

(** A deployment configured without static profiles, with no image to
    discover, for a user without groups. *)
Definition bare_environment : environment :=
  {| docker := DockerImported (Ok []);
     sidecar := Raise URLError;
     user_name := "alice";
     groups := [];
     default_profiles := [];
     first_template := "selected";
     form_template := declared_form_template;
     input_image_template := declared_option_template;
     input_template := declared_option_template;
     group_images :=
       [("group_a", [mkImage "base image group_a" "jupyterhub/singleuser"])];
     default_profile_image := [mkImage "base" "jupyterhub/singleuser"];
     docker_spawner_args := [] |}.

(** A registry whose only profile carries a tag in its display name. *)
Definition tagged_name_environment : environment :=
  {| docker := DockerImported (Ok []);
     sidecar := Raise URLError;
     user_name := "alice";
     groups := ["group_a"];
     default_profiles :=
       [mkProfile "<option>Local" "local" (SpawnerClass "LocalBackend") 0];
     first_template := "selected";
     form_template := declared_form_template;
     input_image_template := declared_option_template;
     input_template := declared_option_template;
     group_images :=
       [("group_a", [mkImage "base image group_a" "jupyterhub/singleuser"])];
     default_profile_image := [mkImage "base" "jupyterhub/singleuser"];
     docker_spawner_args := [] |}.

(** The spawner with its two persisted fields set. *)
Definition with_fields (p i : string) (st : spawner) : spawner :=
  mkSpawner (heap st) (child_class st) (child_config st) p i.

(** The option elements of a group: the marker on the first, nothing on
    the others. *)
Definition profile_options (marker : string) (ps : list profile)
    : list string :=
  match ps with
  | [] => []
  | p :: ps' =>
      option_element (p_key p) marker (p_display p)
      :: map (fun q => option_element (p_key q) EmptyString (p_display q)) ps'
  end.

Definition image_options (marker : string) (imgs : list image)
    : list string :=
  match imgs with
  | [] => []
  | p :: imgs' =>
      option_element (i_reference p) marker (i_display p)
      :: map (fun q => option_element (i_reference q) EmptyString (i_display q))
             imgs'
  end.

(** The flattened per-group image list of line 301. *)
Definition group_image_list (env : environment) : list image :=
  flat_map (images env) (groups env).

(** ** Counting option tags in a rendered form *)

(** [s.startswith(prefix)] *)
Fixpoint starts_with (prefix s : string) : bool :=
  match prefix with
  | EmptyString => true
  | String a prefix' =>
      match s with
      | EmptyString => false
      | String b s' => Ascii.eqb a b && starts_with prefix' s'
      end
  end.

(** [s.count(needle)] for a needle that does not overlap itself. *)
Fixpoint count_occurrences (needle s : string) : nat :=
  match s with
  | EmptyString => 0
  | String c s' =>
      ((if starts_with needle s then 1 else 0)
       + count_occurrences needle s')%nat
  end.

Fixpoint lt_free (s : string) : bool :=
  match s with
  | EmptyString => true
  | String c s' => negb (Ascii.eqb c "<") && lt_free s'
  end.

Definition option_tag : string := "<option".

(** Whether [needle] starts at the head of [s] is settled by [s] alone:
    either it does, or [s] departs from [needle]. *)
Definition settled (needle s : string) : bool :=
  starts_with needle s || negb (starts_with s needle).

Fixpoint all_settled (needle s : string) : bool :=
  match s with
  | EmptyString => true
  | String c s' => settled needle s && all_settled needle s'
  end.

(** No key, display name or marker brings a tag of its own. *)
Definition plain_profile (p : profile) : Prop :=
  lt_free (p_key p) = true /\ lt_free (p_display p) = true.

Definition plain_image (p : image) : Prop :=
  lt_free (i_reference p) = true /\ lt_free (i_display p) = true.

(** [c in s] *)
Fixpoint char_in (c : ascii) (s : string) : bool :=
  match s with
  | EmptyString => false
  | String b s' => Ascii.eqb b c || char_in c s'
  end.

(** The tags that the names of one option element bring along. *)
Definition profile_name_tags (p : profile) : nat :=
  (count_occurrences option_tag (p_key p)
   + count_occurrences option_tag (p_display p))%nat.

Definition image_name_tags (p : image) : nat :=
  (count_occurrences option_tag (i_reference p)
   + count_occurrences option_tag (i_display p))%nat.

(** The marker is written once into a group that has an element. *)
Definition marker_tags (marker : string) (elements : nat) : nat :=
  match elements with
  | O => 0
  | S _ => count_occurrences option_tag marker
  end.

(** ** Further notions and deployments *)

Fixpoint colon_free (s : string) : bool :=
  match s with
  | EmptyString => true
  | String c s' => negb (Ascii.eqb c ":") && colon_free s'
  end.

(** A volume as the sidecar lists it: host, target and what follows the
    target, which is nothing or a colon and a mode. *)
Definition volume_text (v : string * string * string) : string :=
  fst (fst v) +:+ ":" +:+ snd (fst v) +:+ snd v.

Definition volume_entry (v : string * string * string) : string * pyval :=
  (fst (fst v), VStr (snd (fst v))).

Definition well_formed_volume (v : string * string * string) : Prop :=
  colon_free (fst (fst v)) = true /\
  colon_free (snd (fst v)) = true /\
  (snd v = EmptyString \/ exists mode, snd v = ":" +:+ mode).

(** The same deployment with another [default_profile_image]. *)
Definition with_default_profile_image (imgs : list image)
    (env : environment) : environment :=
  {| docker := docker env;
     sidecar := sidecar env;
     user_name := user_name env;
     groups := groups env;
     default_profiles := default_profiles env;
     first_template := first_template env;
     form_template := form_template env;
     input_image_template := input_image_template env;
     input_template := input_template env;
     group_images := group_images env;
     default_profile_image := imgs;
     docker_spawner_args := docker_spawner_args env |}.

(** A deployment configured without static profiles, with no image to
    discover. *)
Definition empty_registry_environment : environment :=
  {| docker := DockerImported (Ok [["hub/other:latest"]]);
     sidecar := Raise URLError;
     user_name := "alice";
     groups := ["group_a"];
     default_profiles := [];
     first_template := "selected";
     form_template := declared_form_template;
     input_image_template := declared_option_template;
     input_template := declared_option_template;
     group_images :=
       [("group_a", [mkImage "base image group_a" "jupyterhub/singleuser"])];
     default_profile_image := [mkImage "base" "jupyterhub/singleuser"];
     docker_spawner_args := [] |}.

(** A body as the GPU sidecar answers it. *)
Definition gpu_body : list (string * pyval) :=
  [("Volumes", VList [VStr "nvidia_driver_352.68:/usr/local/nvidia:ro"]);
   ("VolumeDriver", VStr "nvidia-docker");
   ("Devices", VList [VStr "/dev/nvidiactl"; VStr "/dev/nvidia0"])].

(** A deployment with a GPU sidecar, one discovered image and a configured
    network name. *)
Definition gpu_environment : environment :=
  {| docker := DockerImported (Ok [["hub/jupyterhub"]]);
     sidecar := Ok (VDict gpu_body);
     user_name := "alice";
     groups := ["group_a"];
     default_profiles :=
       [mkProfile "Run Docker Image" "singleuser"
          (SpawnerClass "dockerspawner.systemuserspawner.SystemUserSpawner")
          0];
     first_template := "selected";
     form_template := declared_form_template;
     input_image_template := declared_option_template;
     input_template := declared_option_template;
     group_images := [];
     default_profile_image := [mkImage "base" "jupyterhub/singleuser"];
     docker_spawner_args :=
       [("network_name", VStr "hubnet");
        ("extra_host_config", VDict [("network_mode", VStr "host")])] |}.

(** Text without a brace, which [format] copies. *)
Fixpoint brace_free (s : string) : bool :=
  match s with
  | EmptyString => true
  | String c s' =>
      negb (Ascii.eqb c "{") && negb (Ascii.eqb c "}") && brace_free s'
  end.

(** The example deployment with an image template that asks for the
    type. *)
Definition typed_image_environment : environment :=
  {| docker := DockerImported (Ok []);
     sidecar := Raise URLError;
     user_name := "alice";
     groups := ["group_a"];
     default_profiles := default_profiles example_environment;
     first_template := "selected";
     form_template := declared_form_template;
     input_image_template := "<option>" +:+ "{type}" +:+ "</option>";
     input_template := declared_option_template;
     group_images := group_images example_environment;
     default_profile_image := [];
     docker_spawner_args := [] |}.

(** * Properties *)

(** ** Dictionaries *)

Lemma dict_get_set_eq {V} (k : string) (v : V) (d : dict_of V) :
  dict_get k (dict_set k v d) = Some v.
Proof.
  induction d as [|[k' v'] d IH]; simpl.
  - now rewrite String.eqb_refl.
  - destruct (String.eqb k' k) eqn:E; simpl.
    + now rewrite String.eqb_refl.
    + now rewrite E.
Qed.

Lemma dict_get_set_ne {V} (k k' : string) (v : V) (d : dict_of V) :
  k <> k' -> dict_get k' (dict_set k v d) = dict_get k' d.
Proof.
  intros Hne. induction d as [|[k0 v0] d IH]; simpl.
  - apply String.eqb_neq in Hne. now rewrite Hne.
  - destruct (String.eqb k0 k) eqn:E; simpl.
    + apply String.eqb_eq in E. subst k0.
      apply String.eqb_neq in Hne. now rewrite Hne.
    + destruct (String.eqb k0 k'); [reflexivity | exact IH].
Qed.

Lemma dict_get_update_absent {V} (k : string) (d other : dict_of V) :
  dict_get k other = None -> dict_get k (dict_update d other) = dict_get k d.
Proof.
  unfold dict_update. revert d.
  induction other as [|[k0 v0] other IH]; intros d Habs; simpl in *.
  - reflexivity.
  - destruct (String.eqb k0 k) eqn:E; [discriminate|].
    rewrite IH by assumption.
    apply dict_get_set_ne. now apply String.eqb_neq.
Qed.

Lemma dict_mem_update_absent {V} (k : string) (d other : dict_of V) :
  dict_mem k other = false -> dict_mem k (dict_update d other) = dict_mem k d.
Proof.
  unfold dict_mem. intros Habs.
  rewrite dict_get_update_absent; [reflexivity|].
  destruct (dict_get k other); [discriminate | reflexivity].
Qed.

(** ** The store only grows during a registry read *)

Lemma grow_nil st : grow [] st = st.
Proof. destruct st. unfold grow. simpl. now rewrite app_nil_r. Qed.

Lemma grow_grow a b st : grow b (grow a st) = grow (a ++ b) st.
Proof. unfold grow. simpl. now rewrite <- app_assoc. Qed.

Lemma grow_lookup extra st (r : ref) (d : dict) :
  heap st !! r = Some d -> heap (grow extra st) !! r = Some d.
Proof. intros H. simpl. now apply lookup_app_l_Some. Qed.

Lemma bind_eq {A B} (m : M A) (k : A -> M B) st :
  bind m k st
  = match m st with
    | (Ok a, st') => k a st'
    | (Raise e, st') => (Raise e, st')
    end.
Proof. reflexivity. Qed.

Lemma docker_profile_eq env nv image st :
  _docker_profile env nv image st
  = (Ok (docker_profile_at nv image (length (heap st))),
     grow [docker_options env nv image] st).
Proof. reflexivity. Qed.

Lemma discover_ok env nv tags : forall st,
  map_M (fun tag =>
           let* nvidia_args := lift (Ok nv) in
           _docker_profile env nvidia_args tag) tags st
  = (Ok (discovered nv tags (length (heap st))),
     grow (map (docker_options env nv) tags) st).
Proof.
  induction tags as [|tag tags IH]; intros st; cbn [map_M].
  - simpl. now rewrite grow_nil.
  - rewrite bind_eq, bind_eq. unfold lift at 1.
    rewrite docker_profile_eq, bind_eq, IH.
    unfold ret. rewrite grow_grow. simpl.
    rewrite length_app. simpl. now rewrite Nat.add_1_r.
Qed.

Lemma discover_fails env e tag tags st :
  map_M (fun tag =>
           let* nvidia_args := lift (Raise e) in
           _docker_profile env nvidia_args tag) (tag :: tags) st
  = (Raise e, st).
Proof. reflexivity. Qed.

Lemma profiles_outcome env st : profiles env st = registry_outcome env st.
Proof.
  unfold profiles, _docker_profiles, registry_outcome.
  rewrite bind_eq, bind_eq. unfold lift at 1.
  destruct (_jupyterhub_docker_tags env) as [tags|e]; [|reflexivity].
  destruct tags as [|tag tags].
  - simpl. unfold ret. now rewrite app_nil_r.
  - destruct (_nvidia_args env) as [nv|e].
    + now rewrite discover_ok.
    + now rewrite discover_fails.
Qed.

Lemma profiles_grows env st r st' :
  profiles env st = (r, st') -> exists extra, st' = grow extra st.
Proof.
  rewrite profiles_outcome. unfold registry_outcome.
  destruct (_jupyterhub_docker_tags env) as [[|tag tags]|e].
  - intros [= _ <-]. exists []. now rewrite grow_nil.
  - destruct (_nvidia_args env) as [nv|e].
    + intros [= _ <-]. eauto.
    + intros [= _ <-]. exists []. now rewrite grow_nil.
  - intros [= _ <-]. exists []. now rewrite grow_nil.
Qed.

Lemma discovered_keys nv tags base :
  map p_key (discovered nv tags base)
  = map (fun tag => "docker-" +:+ tag) tags.
Proof.
  revert base. induction tags as [|tag tags IH]; intros base; simpl.
  - reflexivity.
  - now rewrite IH.
Qed.

(** Whether the registry can be read, and under which keys, does not
    depend on the spawner's own state. *)
Lemma profiles_ok_anywhere env st ps st1 st' :
  profiles env st = (Ok ps, st1) ->
  exists ps' extra,
    profiles env st' = (Ok ps', grow extra st') /\
    map p_key ps' = map p_key ps.
Proof.
  rewrite !profiles_outcome. unfold registry_outcome.
  destruct (_jupyterhub_docker_tags env) as [[|tag tags]|e].
  - intros [= <- _]. exists (default_profiles env), [].
    now rewrite grow_nil.
  - destruct (_nvidia_args env) as [nv|e]; [|discriminate].
    intros [= <- _]. eexists _, _. split; [reflexivity|].
    rewrite !map_app. f_equal. simpl. now rewrite !discovered_keys.
  - discriminate.
Qed.

(** ** The selection loop *)

Lemma loop_find ps profile image st :
  select_profile_loop ps profile image st
  = match find (fun q => String.eqb (p_key q) profile) ps with
    | Some p => (Ok tt, selected p image st)
    | None => (Ok tt, st)
    end.
Proof.
  induction ps as [|q ps IH]; simpl.
  - reflexivity.
  - destruct (String.eqb (p_key q) profile); [reflexivity | exact IH].
Qed.

Lemma find_no_match (ps : list profile) profile :
  Forall (fun p => p_key p <> profile) ps ->
  find (fun q => String.eqb (p_key q) profile) ps = None.
Proof.
  induction 1 as [|q ps Hq _ IH]; simpl.
  - reflexivity.
  - apply String.eqb_neq in Hq. now rewrite Hq.
Qed.

Lemma find_first_match (pre post : list profile) p profile :
  Forall (fun q => p_key q <> profile) pre ->
  p_key p = profile ->
  find (fun q => String.eqb (p_key q) profile) (pre ++ p :: post) = Some p.
Proof.
  intros Hpre Hp. induction Hpre as [|q pre Hq _ IH]; simpl.
  - apply String.eqb_eq in Hp. now rewrite Hp.
  - apply String.eqb_neq in Hq. now rewrite Hq.
Qed.

Lemma select_profile_unfold env profile image st :
  select_profile env profile image st
  = match profiles env st with
    | (Ok ps, st1) => select_profile_loop ps profile image st1
    | (Raise e, st1) => (Raise e, st1)
    end.
Proof. reflexivity. Qed.

(** Resolution never touches the two persisted fields. *)
Lemma select_profile_fields env profile image st :
  child_profile (snd (select_profile env profile image st)) = child_profile st
  /\ profile_image (snd (select_profile env profile image st))
     = profile_image st.
Proof.
  rewrite select_profile_unfold.
  destruct (profiles env st) as [[ps|e] st1] eqn:Hps;
    destruct (profiles_grows _ _ _ _ Hps) as [extra ->].
  - rewrite loop_find.
    destruct (find _ ps); simpl; auto.
  - simpl. auto.
Qed.

(** ** Resolution *)

(** C9: with several entries under one key, resolution takes the first one
    in registry order: the child class and configuration are those of the
    earliest entry with the submitted key, and the option mappings of the
    entries after it are not touched. *)
Theorem select_profile_first_match env profile image st pre p post st1 :
  profiles env st = (Ok (pre ++ p :: post)%list, st1) ->
  Forall (fun q => p_key q <> profile) pre ->
  p_key p = profile ->
  select_profile env profile image st = (Ok tt, selected p image st1) /\
  child_class (selected p image st1) = p_class p /\
  child_config (selected p image st1) = p_options p /\
  forall q, In q post -> p_options q <> p_options p ->
    heap (selected p image st1) !! p_options q = heap st1 !! p_options q.
Proof.
  intros Hps Hpre Hp. repeat split.
  - rewrite select_profile_unfold, Hps, loop_find.
    now rewrite (find_first_match pre post p profile Hpre Hp).
  - intros q _ Hne. simpl. apply list_lookup_alter_ne. congruence.
Qed.

Lemma select_profile_first_match_witness :
  profiles duplicate_environment duplicate_spawner
  = (Ok ([mkProfile "Local" "local" (SpawnerClass "LocalBackend") 0]
         ++ mkProfile "First" "twice" (SpawnerClass "FirstBackend") 1
         :: [mkProfile "Second" "twice" (SpawnerClass "SecondBackend") 2;
             docker_profile_at [] "hub/jupyterhub" 4;
             docker_profile_at [] "gpu-jupyterhub" 5])%list,
     grow [docker_options duplicate_environment [] "hub/jupyterhub";
           docker_options duplicate_environment [] "gpu-jupyterhub"]
          duplicate_spawner) /\
  child_class
    (snd (select_profile duplicate_environment "twice" "img1"
            duplicate_spawner))
  = SpawnerClass "FirstBackend".
Proof.
  assert (Hps :
    profiles duplicate_environment duplicate_spawner
    = (Ok ([mkProfile "Local" "local" (SpawnerClass "LocalBackend") 0]
           ++ mkProfile "First" "twice" (SpawnerClass "FirstBackend") 1
           :: [mkProfile "Second" "twice" (SpawnerClass "SecondBackend") 2;
               docker_profile_at [] "hub/jupyterhub" 4;
               docker_profile_at [] "gpu-jupyterhub" 5])%list,
       grow [docker_options duplicate_environment [] "hub/jupyterhub";
             docker_options duplicate_environment [] "gpu-jupyterhub"]
            duplicate_spawner)) by (vm_compute; reflexivity).
  split; [exact Hps|].
  assert (Hpre : Forall (fun q => p_key q <> "twice")
                   [mkProfile "Local" "local" (SpawnerClass "LocalBackend") 0])
    by (repeat constructor; discriminate).
  pose proof (select_profile_first_match
                duplicate_environment "twice" "img1" duplicate_spawner
                _ _ _ _ Hps Hpre eq_refl) as [Hsel _].
  rewrite Hsel. reflexivity.
Defined.

(** C3: when the submitted key matches no entry of the registry,
    resolution returns normally and the child class and the child
    configuration (the reference and every dictionary of the store) are as
    before; a second call ends the same way. *)
Theorem select_profile_no_match env profile image st ps st1 :
  profiles env st = (Ok ps, st1) ->
  Forall (fun p => p_key p <> profile) ps ->
  select_profile env profile image st = (Ok tt, st1) /\
  child_class st1 = child_class st /\
  child_config st1 = child_config st /\
  (forall (r : ref) (d : dict),
     heap st !! r = Some d -> heap st1 !! r = Some d) /\
  exists st2,
    select_profile env profile image st1 = (Ok tt, st2) /\
    child_class st2 = child_class st /\
    child_config st2 = child_config st /\
    (forall (r : ref) (d : dict),
       heap st !! r = Some d -> heap st2 !! r = Some d).
Proof.
  intros Hps Hno.
  destruct (profiles_grows _ _ _ _ Hps) as [extra Hst1].
  split; [|split; [|split; [|split]]].
  - rewrite select_profile_unfold, Hps, loop_find.
    now rewrite find_no_match.
  - now subst st1.
  - now subst st1.
  - intros r d Hr. subst st1. now apply grow_lookup.
  - destruct (profiles_ok_anywhere env st ps st1 st1 Hps)
      as (ps' & extra' & Hps' & Hkeys).
    exists (grow extra' st1). split; [|split; [|split]].
    + rewrite select_profile_unfold, Hps', loop_find.
      rewrite find_no_match; [reflexivity|].
      apply (proj1 (List.Forall_map p_key (fun k => k <> profile) ps')).
      rewrite Hkeys.
      now apply (proj2 (List.Forall_map p_key (fun k => k <> profile) ps)).
    + now subst st1.
    + now subst st1.
    + intros r d Hr. subst st1. now apply grow_lookup, grow_lookup.
Qed.

Lemma select_profile_no_match_witness :
  profiles example_environment example_spawner
  = (Ok (default_profiles example_environment), example_spawner) /\
  select_profile example_environment "gone" "img1" example_spawner
  = (Ok tt, example_spawner).
Proof.
  assert (Hps :
    profiles example_environment example_spawner
    = (Ok (default_profiles example_environment), example_spawner))
    by (vm_compute; reflexivity).
  split; [exact Hps|].
  apply (select_profile_no_match example_environment "gone" "img1"
           example_spawner (default_profiles example_environment)
           example_spawner Hps).
  repeat constructor; discriminate.
Defined.

(** The spec's own example: after resolving [docker-img1], the option
    mapping of the registry entry itself holds the image. *)
Lemma select_profile_mutates_registry_entry :
  exists entry,
    default_profiles example_environment !! 1 = Some entry /\
    p_key entry = "docker-img1" /\
    heap example_spawner !! p_options entry
    = Some [("container_image", VStr "img1")] /\
    let after :=
      snd (select_profile example_environment "docker-img1" "img1"
             example_spawner) in
    child_config after = p_options entry /\
    heap after !! p_options entry
    = Some [("container_image", VStr "img1"); ("image", VStr "img1")] /\
    heap after !! p_options entry <> heap example_spawner !! p_options entry.
Proof.
  exists (mkProfile "GPU box" "docker-img1"
            (SpawnerClass "ContainerBackend") 1).
  vm_compute. repeat split; discriminate.
Qed.

(** C2, amended: when the submitted key matches, resolution sets the child
    class to the backend type of the first matching entry and the child
    configuration to that entry's option mapping itself, with the image
    stored under [image]; the mapping is shared with the registry entry,
    not copied, so the entry's own mapping holds the image as well. *)
Theorem select_profile_match env profile image st ps st1 p d :
  profiles env st = (Ok ps, st1) ->
  find (fun q => String.eqb (p_key q) profile) ps = Some p ->
  heap st1 !! p_options p = Some d ->
  exists st2,
    select_profile env profile image st = (Ok tt, st2) /\
    child_class st2 = p_class p /\
    child_config st2 = p_options p /\
    heap st2 !! child_config st2 = Some (dict_set "image" (VStr image) d) /\
    heap st2 !! p_options p = Some (dict_set "image" (VStr image) d).
Proof.
  intros Hps Hfind Hd. exists (selected p image st1).
  assert (Hnew : heap (selected p image st1) !! p_options p
                 = Some (dict_set "image" (VStr image) d)).
  { unfold selected. cbn [heap]. now rewrite list_lookup_alter_eq, Hd. }
  repeat split; try exact Hnew.
  rewrite select_profile_unfold, Hps, loop_find. now rewrite Hfind.
Qed.

Lemma select_profile_match_witness :
  profiles example_environment example_spawner
  = (Ok (default_profiles example_environment), example_spawner) /\
  exists st2,
    select_profile example_environment "docker-img1" "img1" example_spawner
    = (Ok tt, st2) /\
    child_class st2 = SpawnerClass "ContainerBackend" /\
    heap st2 !! child_config st2
    = Some [("container_image", VStr "img1"); ("image", VStr "img1")].
Proof.
  assert (Hps :
    profiles example_environment example_spawner
    = (Ok (default_profiles example_environment), example_spawner))
    by (vm_compute; reflexivity).
  split; [exact Hps|].
  destruct (select_profile_match example_environment "docker-img1" "img1"
              example_spawner (default_profiles example_environment)
              example_spawner
              (mkProfile "GPU box" "docker-img1"
                 (SpawnerClass "ContainerBackend") 1)
              [("container_image", VStr "img1")]
              Hps eq_refl eq_refl)
    as (st2 & Hsel & Hclass & _ & Hconfig & _).
  exists st2. repeat split; assumption.
Defined.

(** ** Persisted state *)

Lemma load_child_class_unfold env state st :
  load_child_class env state st
  = match
      try_except_M
        (let* p := lift (dict_getitem "profile" state) in
         set_child_profile p ;;
         let* i := lift (dict_getitem "dockerImage" state) in
         set_profile_image i)
        is_KeyError
        (set_child_profile (VStr EmptyString) ;;
         set_profile_image (VStr EmptyString)) st
    with
    | (Ok _, st') =>
        select_profile env (child_profile st') (profile_image st') st'
    | (Raise e, st') => (Raise e, st')
    end.
Proof. reflexivity. Qed.

Lemma load_child_class_present env state st p i :
  dict_get "profile" state = Some (VStr p) ->
  dict_get "dockerImage" state = Some (VStr i) ->
  load_child_class env state st = select_profile env p i (with_fields p i st).
Proof.
  intros Hp Hi. rewrite load_child_class_unfold.
  unfold try_except_M, bind, lift, dict_getitem.
  rewrite Hp. simpl. now rewrite Hi.
Qed.

Lemma load_child_class_missing env state st :
  dict_get "profile" state = None \/
  ((exists s, dict_get "profile" state = Some (VStr s)) /\
   dict_get "dockerImage" state = None) ->
  load_child_class env state st
  = select_profile env EmptyString EmptyString
      (with_fields EmptyString EmptyString st).
Proof.
  intros Hmiss. rewrite load_child_class_unfold.
  unfold try_except_M, bind, lift, dict_getitem.
  destruct Hmiss as [Hp | [[s Hp] Hi]].
  - now rewrite Hp.
  - rewrite Hp. simpl. now rewrite Hi.
Qed.

Lemma get_state_eq super_state st :
  get_state super_state st
  = (Ok (dict_set "dockerImage" (VStr (profile_image st))
           (dict_set "profile" (VStr (child_profile st)) super_state)),
     st).
Proof. reflexivity. Qed.

(** C4: persisting with [get_state] and restoring with [load_child_class]
    brings back the same profile key and image reference, whatever else
    the state mapping holds and whatever spawner restores it. *)
Theorem get_state_load_child_class_roundtrip env super_state st st' :
  exists state,
    get_state super_state st = (Ok state, st) /\
    child_profile (snd (load_child_class env state st')) = child_profile st /\
    profile_image (snd (load_child_class env state st')) = profile_image st.
Proof.
  exists (dict_set "dockerImage" (VStr (profile_image st))
            (dict_set "profile" (VStr (child_profile st)) super_state)).
  split; [reflexivity|].
  rewrite (load_child_class_present env _ st'
             (child_profile st) (profile_image st)).
  - exact (select_profile_fields env (child_profile st) (profile_image st)
             (with_fields (child_profile st) (profile_image st) st')).
  - rewrite dict_get_set_ne by discriminate. apply dict_get_set_eq.
  - apply dict_get_set_eq.
Qed.

(** Restoring a state that lacks a key can raise.  Without the docker
    package, and with static entries that hold classes, restoring a state
    that lacks both keys ends in the configuration error of the registry
    read.  And where the registry can be read, a state that lacks
    [dockerImage] and whose [profile] is no string ends in the error of the
    trait, which refuses the value on line 203 before line 204 misses the
    key: the fields keep what they held. *)
Lemma load_child_class_raises_on_missing_key :
  (docker (local_environment ["group_a"]) = DockerNotImported /\
   holds_classes (local_environment ["group_a"]) /\
   dict_get "profile" ([] : dict) = None /\
   dict_get "dockerImage" ([] : dict) = None /\
   load_child_class (local_environment ["group_a"]) [] local_spawner
   = (Raise (Exception_ docker_missing_message), local_spawner)) /\
  (profiles example_environment
     (with_fields "docker-img1" "img1" example_spawner)
   = (Ok (default_profiles example_environment),
      with_fields "docker-img1" "img1" example_spawner) /\
   dict_get "profile" [("profile", VInt 5)] = Some (VInt 5) /\
   dict_get "dockerImage" [("profile", VInt 5)] = None /\
   load_child_class example_environment [("profile", VInt 5)]
     (with_fields "docker-img1" "img1" example_spawner)
   = (Raise TraitError, with_fields "docker-img1" "img1" example_spawner)).
Proof.
  split.
  - split; [reflexivity|].
    split; [repeat constructor; eexists; reflexivity|].
    vm_compute. repeat split; reflexivity.
  - vm_compute. repeat split; reflexivity.
Qed.

(** Whatever the registry read does, a missing key resets both fields. *)
Lemma load_child_class_missing_resets env state st :
  dict_get "profile" state = None \/
  ((exists s, dict_get "profile" state = Some (VStr s)) /\
   dict_get "dockerImage" state = None) ->
  child_profile (snd (load_child_class env state st)) = EmptyString /\
  profile_image (snd (load_child_class env state st)) = EmptyString.
Proof.
  intros Hmiss. rewrite load_child_class_missing by assumption.
  apply (select_profile_fields env EmptyString EmptyString
           (with_fields EmptyString EmptyString st)).
Qed.

(** C5, amended: when [profile] is missing from the persisted state, or
    [profile] holds a string and [dockerImage] is missing, restoring resets
    both fields to the empty string, and it returns normally provided the
    profile registry can be read. *)
Theorem load_child_class_missing_key env state st ps st1 :
  dict_get "profile" state = None \/
  ((exists s, dict_get "profile" state = Some (VStr s)) /\
   dict_get "dockerImage" state = None) ->
  profiles env st = (Ok ps, st1) ->
  exists st2,
    load_child_class env state st = (Ok tt, st2) /\
    child_profile st2 = EmptyString /\
    profile_image st2 = EmptyString.
Proof.
  intros Hmiss Hps.
  destruct (load_child_class_missing_resets env state st Hmiss) as [Hp Hi].
  rewrite load_child_class_missing in * by assumption.
  destruct (profiles_ok_anywhere env st ps st1
              (with_fields EmptyString EmptyString st) Hps)
    as (ps' & extra & Hps' & _).
  rewrite select_profile_unfold, Hps', loop_find in *.
  destruct (find _ ps'); eexists; (split; [reflexivity|]); auto.
Qed.

Lemma load_child_class_missing_key_witness :
  dict_get "dockerImage" [("profile", VStr "docker-img1")] = None /\
  profiles example_environment example_spawner
  = (Ok (default_profiles example_environment), example_spawner) /\
  exists st2,
    load_child_class example_environment [("profile", VStr "docker-img1")]
      example_spawner = (Ok tt, st2) /\
    child_profile st2 = EmptyString /\
    profile_image st2 = EmptyString.
Proof.
  assert (Hps :
    profiles example_environment example_spawner
    = (Ok (default_profiles example_environment), example_spawner))
    by (vm_compute; reflexivity).
  split; [reflexivity|]. split; [exact Hps|].
  apply (load_child_class_missing_key example_environment
           [("profile", VStr "docker-img1")] example_spawner
           (default_profiles example_environment) example_spawner).
  - right. split; [exists "docker-img1"|]; reflexivity.
  - exact Hps.
Defined.

(** ** Form submission *)

(** C1: [options_from_form] cannot return.  The default of the second
    [get] subscripts [self.images], which is a bound method, and the
    default is evaluated for every form; so the call ends in an exception
    for every form, and in [TypeError] for the empty form under the
    declared configuration with a working docker client. *)
Theorem options_from_form_raises :
  (forall env formdata st,
     exists e st', options_from_form env formdata st = (Raise e, st')) /\
  options_from_form
    (declared_environment (Ok []) (Raise URLError) ["group_a"])
    [] declared_spawner
  = (Raise TypeError, declared_spawner).
Proof.
  split; [|vm_compute; reflexivity].
  intros env formdata st. unfold options_from_form.
  rewrite bind_eq.
  destruct (profiles env st) as [[ps|e] st1]; [|eauto].
  rewrite bind_eq. unfold lift at 1.
  destruct (seq_getitem ps 0) as [p0|e]; [|eauto].
  rewrite bind_eq. unfold lift at 1.
  destruct (seq_getitem _ 0) as [profile|e]; [|eauto].
  rewrite bind_eq. unfold lift at 1. simpl. eauto.
Qed.

(** ** The GPU probe *)

Lemma dict_mem_set_mono {V} (k k0 : string) (v0 : V) (d : dict_of V) :
  dict_mem k d = true -> dict_mem k (dict_set k0 v0 d) = true.
Proof.
  unfold dict_mem. intros Hin.
  destruct (String.eqb k0 k) eqn:E.
  - apply String.eqb_eq in E. subst k0. now rewrite dict_get_set_eq.
  - apply String.eqb_neq in E. now rewrite dict_get_set_ne.
Qed.

Lemma dict_mem_update_mono {V} (k : string) (d other : dict_of V) :
  dict_mem k d = true -> dict_mem k (dict_update d other) = true.
Proof.
  unfold dict_update. revert d.
  induction other as [|[k0 v0] other IH]; intros d Hin; simpl.
  - exact Hin.
  - apply IH. now apply dict_mem_set_mono.
Qed.

Lemma dict_mem_update_present {V} (k : string) (d other : dict_of V) :
  dict_mem k other = true -> dict_mem k (dict_update d other) = true.
Proof.
  unfold dict_update. revert d.
  induction other as [|[k0 v0] other IH]; intros d Hin; simpl.
  - discriminate.
  - unfold dict_mem in Hin. simpl in Hin.
    destruct (String.eqb k0 k) eqn:E.
    + apply String.eqb_eq in E. subst k0.
      apply (dict_mem_update_mono k (dict_set k v0 d) other).
      unfold dict_mem. now rewrite dict_get_set_eq.
    + apply IH. exact Hin.
Qed.

Lemma nvidia_args_unreachable env :
  sidecar env = Raise URLError -> _nvidia_args env = Ok [].
Proof. intros Hdown. unfold _nvidia_args. now rewrite Hdown. Qed.

(** With the sidecar down, a deployment that configures
    [extra_host_config] for its containers gets a discovered profile that
    holds this key. *)
Lemma failed_probe_profile_has_host_config :
  sidecar host_config_environment = Raise URLError /\
  _nvidia_args host_config_environment = Ok [] /\
  In "extra_host_config" gpu_keys /\
  exists p st' options,
    _docker_profile host_config_environment [] "hub/jupyterhub"
      declared_spawner = (Ok p, st') /\
    heap st' !! p_options p = Some options /\
    dict_mem "extra_host_config" options = true.
Proof.
  split; [reflexivity|]. split; [reflexivity|].
  split; [simpl; tauto|].
  eexists _, _, _. vm_compute. repeat split; reflexivity.
Qed.

(** C6, amended: when the probe ends in [URLError], [_nvidia_args] returns
    the empty mapping, and the profile built from it is labelled "no GPU"
    and has the options [container_image] and [network_name] updated with
    the configured [docker_spawner_args]: a GPU key is among them exactly
    when [docker_spawner_args] itself sets it, which the declared default
    does not. *)
Theorem failed_probe_adds_no_gpu_keys env image st :
  sidecar env = Raise URLError ->
  _nvidia_args env = Ok [] /\
  exists p st',
    _docker_profile env [] image st = (Ok p, st') /\
    p_display p = "Docker: (no GPU): " +:+ image /\
    heap st' !! p_options p = Some (docker_options env [] image) /\
    forall k, In k gpu_keys ->
      dict_mem k (docker_options env [] image)
      = dict_mem k (docker_spawner_args env).
Proof.
  intros Hdown. split; [now apply nvidia_args_unreachable|].
  eexists _, _. rewrite docker_profile_eq.
  split; [reflexivity|]. split; [reflexivity|]. split.
  - cbn [p_options docker_profile_at grow heap].
    now rewrite list_lookup_middle.
  - intros k Hk. unfold docker_options. cbn [dict_update fold_left].
    change (fold_left _ (docker_spawner_args env) ?d)
      with (dict_update d (docker_spawner_args env)).
    destruct (dict_mem k (docker_spawner_args env)) eqn:Hconf.
    + now apply dict_mem_update_present.
    + rewrite dict_mem_update_absent by assumption.
      simpl in Hk. destruct Hk as [<-|[<-|[<-|[]]]]; reflexivity.
Qed.

Lemma failed_probe_adds_no_gpu_keys_witness :
  sidecar example_environment = Raise URLError /\
  _nvidia_args example_environment = Ok [] /\
  dict_mem "extra_host_config"
    (docker_options example_environment [] "hub/jupyterhub") = false.
Proof.
  split; [reflexivity|].
  destruct (failed_probe_adds_no_gpu_keys example_environment
              "hub/jupyterhub" example_spawner eq_refl)
    as (Hnv & p & st' & _ & _ & _ & Hkeys).
  split; [exact Hnv|].
  rewrite (Hkeys "extra_host_config") by (simpl; tauto).
  reflexivity.
Defined.

(** ** Image discovery and the registry *)

Lemma discovered_length nv tags base :
  length (discovered nv tags base) = length tags.
Proof.
  revert base. induction tags as [|tag tags IH]; intros base; simpl.
  - reflexivity.
  - now rewrite IH.
Qed.

Lemma discovered_lookup nv tags : forall base (i : nat) tag,
  tags !! i = Some tag ->
  discovered nv tags base !! i = Some (docker_profile_at nv tag (base + i)).
Proof.
  induction tags as [|t tags IH]; intros base [|i] tag; simpl;
    try discriminate.
  - intros [= ->]. now rewrite Nat.add_0_r.
  - intros Hi. rewrite (IH (S base) i tag Hi). f_equal. f_equal. lia.
Qed.

Lemma tags_without_docker env :
  docker env = DockerNotImported ->
  _jupyterhub_docker_tags env = Raise (Exception_ docker_missing_message).
Proof. intros Hd. unfold _jupyterhub_docker_tags. now rewrite Hd. Qed.

Lemma profiles_without_docker env st :
  docker env = DockerNotImported ->
  profiles env st = (Raise (Exception_ docker_missing_message), st).
Proof.
  intros Hd. rewrite profiles_outcome. unfold registry_outcome.
  now rewrite tags_without_docker.
Qed.

Lemma profiles_with_docker env imgs nv st :
  docker env = DockerImported (Ok imgs) ->
  _nvidia_args env = Ok nv ->
  let retained := List.filter jupyterhub_docker_tag_re_match (concat imgs) in
  profiles env st
  = (Ok (default_profiles env
         ++ discovered nv retained (length (heap st)))%list,
     grow (map (docker_options env nv) retained) st).
Proof.
  intros Hd Hnv retained. rewrite profiles_outcome.
  unfold registry_outcome, _jupyterhub_docker_tags.
  rewrite Hd. unfold try_except, rbind. fold retained.
  destruct retained as [|tag tags].
  - simpl. now rewrite grow_nil, app_nil_r.
  - now rewrite Hnv.
Qed.

(** With the client available and an image to discover, the registry read
    raises when the GPU probe does: the sidecar port answers something
    that is not JSON, the [ValueError] is no [URLError], and the registry is
    not the static list followed by the discovered profiles. *)
Lemma profiles_raises_with_client :
  docker unparsable_sidecar_environment
  = DockerImported (Ok [["hub/jupyterhub"]]) /\
  holds_classes unparsable_sidecar_environment /\
  _jupyterhub_docker_tags unparsable_sidecar_environment
  = Ok ["hub/jupyterhub"] /\
  _nvidia_args unparsable_sidecar_environment = Raise ValueError /\
  profiles unparsable_sidecar_environment example_spawner
  = (Raise ValueError, example_spawner).
Proof.
  split; [reflexivity|].
  split; [repeat constructor; eexists; reflexivity|].
  vm_compute. repeat split; reflexivity.
Qed.

(** C8, amended: the static entries hold classes, as the trait hands them
    out.  Without the docker client, discovery ends in the configuration
    error, and so does every read of the registry; importing the module,
    building a profile and saving or clearing the state do not read the
    registry and return normally.  With the client, and a GPU probe that
    returns, the registry is the static list followed by one discovered
    profile per retained tag, in the order of the tags; where no tag is
    retained the probe is not asked, and the registry is the static
    list. *)
Theorem discovery_error_and_order env :
  holds_classes env ->
  (docker env = DockerNotImported ->
   _jupyterhub_docker_tags env = Raise (Exception_ docker_missing_message) /\
   (forall st,
      _docker_profiles env st
      = (Raise (Exception_ docker_missing_message), st)) /\
   (forall st,
      profiles env st = (Raise (Exception_ docker_missing_message), st)) /\
   (forall profile image st,
      select_profile env profile image st
      = (Raise (Exception_ docker_missing_message), st)) /\
   (forall st,
      options_form env st = (Raise (Exception_ docker_missing_message), st)) /\
   import_docker None = Ok DockerNotImported /\
   (forall nv image st,
      exists p st', _docker_profile env nv image st = (Ok p, st')) /\
   (forall super_state st,
      exists state, get_state super_state st = (Ok state, st)) /\
   (forall st, exists st', clear_state (ret tt) st = (Ok tt, st'))) /\
  (forall imgs nv st,
     docker env = DockerImported (Ok imgs) ->
     _nvidia_args env = Ok nv ->
     let retained :=
       List.filter jupyterhub_docker_tag_re_match (concat imgs) in
     let found := discovered nv retained (length (heap st)) in
     profiles env st
     = (Ok (default_profiles env ++ found)%list,
        grow (map (docker_options env nv) retained) st) /\
     length found = length retained /\
     map p_key found = map (fun tag => "docker-" +:+ tag) retained /\
     (forall (i : nat) tag, retained !! i = Some tag ->
        found !! i
        = Some (docker_profile_at nv tag (length (heap st) + i)))) /\
  (forall imgs st,
     docker env = DockerImported (Ok imgs) ->
     List.filter jupyterhub_docker_tag_re_match (concat imgs) = [] ->
     profiles env st = (Ok (default_profiles env), st)).
Proof.
  intros _. split; [|split].
  - intros Hd. split; [now apply tags_without_docker|].
    split.
    { intros st. unfold _docker_profiles. rewrite bind_eq. unfold lift.
      now rewrite tags_without_docker. }
    split; [intros st; now apply profiles_without_docker|].
    split.
    { intros profile image st.
      now rewrite select_profile_unfold, profiles_without_docker. }
    split.
    { intros st. unfold options_form. rewrite bind_eq.
      now rewrite profiles_without_docker. }
    split; [reflexivity|].
    split; [intros nv image st; rewrite docker_profile_eq; eauto|].
    split; [intros super_state st; rewrite get_state_eq; eauto|].
    intros st. eexists. reflexivity.
  - intros imgs nv st Hd Hnv retained found.
    split; [now apply profiles_with_docker|].
    split; [apply discovered_length|].
    split; [apply discovered_keys|].
    intros i tag Hi. now apply discovered_lookup.
  - intros imgs st Hd Hnone. rewrite profiles_outcome.
    unfold registry_outcome, _jupyterhub_docker_tags.
    rewrite Hd. unfold try_except, rbind. now rewrite Hnone.
Qed.

Lemma discovery_error_and_order_witness :
  holds_classes (local_environment ["group_a"]) /\
  holds_classes duplicate_environment /\
  profiles (local_environment ["group_a"]) local_spawner
  = (Raise (Exception_ docker_missing_message), local_spawner) /\
  profiles duplicate_environment duplicate_spawner
  = (Ok (default_profiles duplicate_environment
         ++ [docker_profile_at [] "hub/jupyterhub" 4;
             docker_profile_at [] "gpu-jupyterhub" 5])%list,
     grow [docker_options duplicate_environment [] "hub/jupyterhub";
           docker_options duplicate_environment [] "gpu-jupyterhub"]
          duplicate_spawner).
Proof.
  assert (Hlocal : holds_classes (local_environment ["group_a"]))
    by (repeat constructor; eexists; reflexivity).
  assert (Hdup : holds_classes duplicate_environment)
    by (repeat constructor; eexists; reflexivity).
  split; [exact Hlocal|]. split; [exact Hdup|]. split.
  - apply (proj1 (discovery_error_and_order (local_environment ["group_a"])
                    Hlocal)
             eq_refl).
  - pose proof (proj1 (proj2 (discovery_error_and_order duplicate_environment
                                Hdup))
                  [["hub/jupyterhub"; "hub/other:latest"]; [];
                   ["gpu-jupyterhub"]]
                  [] duplicate_spawner eq_refl eq_refl) as [Hps _].
    vm_compute in Hps. vm_compute. exact Hps.
Defined.

(** ** The rendered form *)

Lemma format_profile_record k f d t :
  py_format declared_option_template
    [("display", d); ("key", k); ("type", t); ("first", f)]
  = Ok (option_element k f d).
Proof. vm_compute. reflexivity. Qed.

Lemma format_image_record k f d :
  py_format declared_option_template
    [("display", d); ("key", k); ("first", f)]
  = Ok (option_element k f d).
Proof. vm_compute. reflexivity. Qed.

Lemma format_form text textImages :
  py_format declared_form_template
    [("input_template", text); ("input_image_template", textImages)]
  = Ok (form_head +:+ text +:+ form_middle +:+ textImages +:+ form_tail).
Proof. vm_compute. reflexivity. Qed.

Lemma format_profile_records ps :
  map_result (py_format declared_option_template) (map profile_record ps)
  = Ok (map (fun q => option_element (p_key q) EmptyString (p_display q)) ps).
Proof.
  induction ps as [|p ps IH]; cbn [map map_result].
  - reflexivity.
  - unfold profile_record at 1. rewrite format_profile_record.
    cbn [rbind]. rewrite IH. reflexivity.
Qed.

Lemma format_image_records imgs :
  map_result (py_format declared_option_template) (map image_record imgs)
  = Ok (map (fun q => option_element (i_reference q) EmptyString (i_display q))
            imgs).
Proof.
  induction imgs as [|p imgs IH]; cbn [map map_result].
  - reflexivity.
  - unfold image_record at 1. rewrite format_image_record.
    cbn [rbind]. rewrite IH. reflexivity.
Qed.

Lemma mark_first_cons marker (r : dict_of string) rs :
  mark_first marker (r :: rs) = Ok (dict_set "first" marker r :: rs).
Proof. reflexivity. Qed.

Lemma format_marked_profiles marker p ps :
  map_result (py_format declared_option_template)
    (dict_set "first" marker (profile_record p) :: map profile_record ps)
  = Ok (profile_options marker (p :: ps)).
Proof.
  change (dict_set "first" marker (profile_record p))
    with [("display", p_display p); ("key", p_key p);
          ("type", str_of_type (p_class p)); ("first", marker)].
  cbn [map_result]. rewrite format_profile_record. cbn [rbind].
  rewrite format_profile_records. reflexivity.
Qed.

Lemma format_marked_images marker p imgs :
  map_result (py_format declared_option_template)
    (dict_set "first" marker (image_record p) :: map image_record imgs)
  = Ok (image_options marker (p :: imgs)).
Proof.
  change (dict_set "first" marker (image_record p))
    with [("display", i_display p); ("key", i_reference p);
          ("first", marker)].
  cbn [map_result]. rewrite format_image_record. cbn [rbind].
  rewrite format_image_records. reflexivity.
Qed.

Lemma flat_map_records env gs :
  flat_map (fun group => map image_record (images env group)) gs
  = map image_record (flat_map (images env) gs).
Proof.
  induction gs as [|g gs IH]; simpl.
  - reflexivity.
  - now rewrite IH, map_app.
Qed.

Lemma lookup_map {A B} (f : A -> B) (l : list A) (i : nat) (a : A) :
  l !! i = Some a -> map f l !! i = Some (f a).
Proof.
  revert i. induction l as [|x l IH]; intros [|i]; simpl; try discriminate.
  - now intros [= ->].
  - apply IH.
Qed.

Lemma profile_options_length marker ps :
  length (profile_options marker ps) = length ps.
Proof. destruct ps; simpl; [reflexivity|]. now rewrite length_map. Qed.

Lemma image_options_length marker imgs :
  length (image_options marker imgs) = length imgs.
Proof. destruct imgs; simpl; [reflexivity|]. now rewrite length_map. Qed.

Lemma profile_options_lookup marker ps i p :
  ps !! i = Some p ->
  profile_options marker ps !! i
  = Some (option_element (p_key p)
            (if Nat.eqb i 0 then marker else EmptyString) (p_display p)).
Proof.
  destruct ps as [|p0 ps]; [discriminate|].
  destruct i as [|i]; simpl.
  - now intros [= ->].
  - apply (lookup_map
             (fun q => option_element (p_key q) EmptyString (p_display q))).
Qed.


(** The whole form under the declared templates. *)
Lemma options_form_rendered env st ps st1 :
  uses_declared_templates env ->
  profiles env st = (Ok ps, st1) ->
  (1 <= length ps)%nat ->
  options_form env st
  = (Ok (form_head
         +:+ concat_strings (profile_options (first_template env) ps)
         +:+ form_middle
         +:+ concat_strings
               (image_options (first_template env) (group_image_list env))
         +:+ form_tail),
     st1).
Proof.
  intros (Hform & Hopt & Himg) Hps Hlen.
  destruct ps as [|p ps]; [simpl in Hlen; lia|].
  unfold options_form. rewrite bind_eq, Hps.
  cbn [map]. rewrite mark_first_cons.
  rewrite bind_eq. unfold lift at 1.
  rewrite flat_map_records. fold (group_image_list env).
  rewrite Hform, Hopt, Himg.
  destruct (group_image_list env) as [|i imgs].
  - cbn [map]. rewrite bind_eq. unfold ret at 1.
    rewrite bind_eq. unfold lift at 1. rewrite format_marked_profiles.
    rewrite bind_eq. unfold lift at 1. cbn [map_result].
    unfold lift. now rewrite format_form.
  - cbn [map]. rewrite mark_first_cons.
    rewrite bind_eq. unfold lift at 1.
    rewrite bind_eq. unfold lift at 1. rewrite format_marked_profiles.
    rewrite bind_eq. unfold lift at 1. rewrite format_marked_images.
    unfold lift. now rewrite format_form.
Qed.



(** The form of a user without images can fail to render.  Without the
    docker package, and with static entries that hold classes, the registry
    read raises first.  With a registry of two profiles and a profile
    template that names a field the records do not have, [format] raises
    [KeyError].  With a registry that is read and holds no profile, marking
    the first record raises [IndexError]. *)
Lemma options_form_raises_without_images :
  (docker (local_environment ["group_c"]) = DockerNotImported /\
   holds_classes (local_environment ["group_c"]) /\
   group_image_list (local_environment ["group_c"]) = [] /\
   options_form (local_environment ["group_c"]) local_spawner
   = (Raise (Exception_ docker_missing_message), local_spawner)) /\
  (group_image_list unknown_field_environment = [] /\
   profiles unknown_field_environment example_spawner
   = (Ok (default_profiles unknown_field_environment), example_spawner) /\
   length (default_profiles unknown_field_environment) = 2%nat /\
   options_form unknown_field_environment example_spawner
   = (Raise (KeyError (VStr "name")), example_spawner)) /\
  (group_image_list bare_environment = [] /\
   profiles bare_environment example_spawner = (Ok [], example_spawner) /\
   options_form bare_environment example_spawner
   = (Raise IndexError, example_spawner)).
Proof.
  split; [|split].
  - split; [reflexivity|].
    split; [repeat constructor; eexists; reflexivity|].
    vm_compute. split; reflexivity.
  - vm_compute. repeat split; reflexivity.
  - vm_compute. repeat split; reflexivity.
Qed.

(** C10, amended: for a user whose groups give no image, and a registry
    that is read successfully and holds at least one profile, rendering
    under the declared templates returns the form with the profile group as
    for any other user and nothing between the middle and the tail: no
    image option element and no marker. *)
Theorem options_form_without_images env st ps st1 :
  uses_declared_templates env ->
  profiles env st = (Ok ps, st1) ->
  (1 <= length ps)%nat ->
  group_image_list env = [] ->
  exists profile_elements,
    options_form env st
    = (Ok (form_head +:+ concat_strings profile_elements
           +:+ form_middle +:+ form_tail),
       st1) /\
    length profile_elements = length ps /\
    (forall (i : nat) p, ps !! i = Some p ->
       profile_elements !! i
       = Some (option_element (p_key p)
                 (if Nat.eqb i 0 then first_template env else EmptyString)
                 (p_display p))).
Proof.
  intros Htpl Hps Hlen Hnone.
  exists (profile_options (first_template env) ps).
  split; [|split].
  - rewrite (options_form_rendered env st ps st1 Htpl Hps Hlen).
    now rewrite Hnone.
  - apply profile_options_length.
  - intros i p Hi. now apply profile_options_lookup.
Qed.

Lemma options_form_without_images_witness :
  group_image_list
    (declared_environment (Ok []) (Raise URLError) ["group_c"])
  = [] /\
  exists profile_elements,
    options_form
      (declared_environment (Ok []) (Raise URLError)
         ["group_c"])
      declared_spawner
    = (Ok (form_head +:+ concat_strings profile_elements
           +:+ form_middle +:+ form_tail),
       declared_spawner) /\
    length profile_elements = 1%nat.
Proof.
  assert (Hps :
    profiles
      (declared_environment (Ok []) (Raise URLError)
         ["group_c"])
      declared_spawner
    = (Ok [mkProfile "Run Docker Image" "singleuser"
             (SpawnerClass
                "dockerspawner.systemuserspawner.SystemUserSpawner") 0],
       declared_spawner))
    by (vm_compute; reflexivity).
  split; [reflexivity|].
  destruct (options_form_without_images
              (declared_environment (Ok []) (Raise URLError)
                 ["group_c"])
              declared_spawner _ declared_spawner
              (conj eq_refl (conj eq_refl eq_refl)) Hps (le_n 1) eq_refl)
    as (pe & Hform & Hlen & _).
  exists pe. split; [exact Hform | exact Hlen].
Defined.

(** ** How many option tags the form holds *)

Lemma append_cons c a b : String c a +:+ b = String c (a +:+ b).
Proof. reflexivity. Qed.

Lemma starts_with_settled needle : forall s b,
  settled needle s = true ->
  starts_with needle (s +:+ b) = starts_with needle s.
Proof.
  unfold settled.
  induction needle as [|a needle IH]; intros s b Hs.
  - reflexivity.
  - destruct s as [|c s].
    + discriminate.
    + rewrite append_cons. cbn [starts_with] in *.
      rewrite (Ascii.eqb_sym c a) in Hs.
      destruct (Ascii.eqb a c); cbn [andb] in *.
      * now apply IH.
      * reflexivity.
Qed.

Lemma settled_app needle : forall s b,
  settled needle s = true -> s <> EmptyString ->
  settled needle (s +:+ b) = true.
Proof.
  unfold settled.
  induction needle as [|a needle IH]; intros s b Hs Hne.
  - reflexivity.
  - destruct s as [|c s]; [congruence|].
    rewrite append_cons. cbn [starts_with] in *.
    rewrite (Ascii.eqb_sym c a) in *.
    destruct (Ascii.eqb a c); cbn [andb] in *; [|reflexivity].
    destruct s as [|c' s].
    + destruct needle; [reflexivity | discriminate].
    + apply IH; [exact Hs | discriminate].
Qed.

Lemma count_app needle a b :
  all_settled needle a = true ->
  count_occurrences needle (a +:+ b)
  = (count_occurrences needle a + count_occurrences needle b)%nat.
Proof.
  induction a as [|c a IH]; intros Ha.
  - reflexivity.
  - cbn [all_settled] in Ha. apply andb_prop in Ha. destruct Ha as [Hs Ha].
    rewrite append_cons. cbn [count_occurrences].
    rewrite <- append_cons, (starts_with_settled needle _ b Hs).
    rewrite IH by assumption. lia.
Qed.

Lemma all_settled_app needle a b :
  all_settled needle a = true -> all_settled needle b = true ->
  all_settled needle (a +:+ b) = true.
Proof.
  induction a as [|c a IH]; intros Ha Hb.
  - exact Hb.
  - cbn [all_settled] in Ha. apply andb_prop in Ha. destruct Ha as [Hs Ha].
    rewrite append_cons. cbn [all_settled]. rewrite <- append_cons.
    rewrite settled_app by (assumption || discriminate).
    now apply IH.
Qed.

Lemma lt_free_settled a :
  lt_free a = true ->
  all_settled option_tag a = true /\ count_occurrences option_tag a = 0%nat.
Proof.
  induction a as [|c a IH]; intros Ha.
  - split; reflexivity.
  - cbn [lt_free] in Ha. apply andb_prop in Ha. destruct Ha as [Hc Ha].
    apply negb_true_iff in Hc. destruct (IH Ha) as [IH1 IH2].
    cbn [all_settled count_occurrences]. unfold settled, option_tag.
    cbn [starts_with]. rewrite (Ascii.eqb_sym "<" c), Hc.
    cbn [andb orb negb Nat.add]. auto.
Qed.

Lemma option_element_count k f d :
  lt_free k = true -> lt_free f = true -> lt_free d = true ->
  all_settled option_tag (option_element k f d) = true /\
  count_occurrences option_tag (option_element k f d) = 1%nat.
Proof.
  intros Hk Hf Hd.
  destruct (lt_free_settled k Hk) as [Sk Ck].
  destruct (lt_free_settled f Hf) as [Sf Cf].
  destruct (lt_free_settled d Hd) as [Sd Cd].
  unfold option_element. split.
  - repeat (apply all_settled_app;
            [first [assumption | vm_compute; reflexivity]|]).
    vm_compute; reflexivity.
  - repeat (rewrite count_app by first [assumption | vm_compute; reflexivity]).
    rewrite Ck, Cf, Cd. vm_compute. reflexivity.
Qed.

Lemma concat_count (l : list string) :
  Forall (fun e => all_settled option_tag e = true /\
                   count_occurrences option_tag e = 1%nat) l ->
  all_settled option_tag (concat_strings l) = true /\
  count_occurrences option_tag (concat_strings l) = length l.
Proof.
  induction 1 as [|e l [He Ce] _ [IHs IHc]]; cbn [concat_strings length].
  - split; reflexivity.
  - split.
    + now apply all_settled_app.
    + rewrite count_app by assumption. now rewrite Ce, IHc.
Qed.

Lemma profile_options_count marker ps :
  lt_free marker = true ->
  Forall plain_profile ps ->
  Forall (fun e => all_settled option_tag e = true /\
                   count_occurrences option_tag e = 1%nat)
         (profile_options marker ps).
Proof.
  intros Hm Hps. destruct Hps as [|p ps [Hk Hd] Hps]; cbn [profile_options].
  - constructor.
  - constructor; [now apply option_element_count|].
    induction Hps as [|q ps [Hqk Hqd] _ IH]; cbn [map]; constructor.
    + now apply option_element_count.
    + exact IH.
Qed.

Lemma image_options_count marker imgs :
  lt_free marker = true ->
  Forall plain_image imgs ->
  Forall (fun e => all_settled option_tag e = true /\
                   count_occurrences option_tag e = 1%nat)
         (image_options marker imgs).
Proof.
  intros Hm Hps. destruct Hps as [|p ps [Hk Hd] Hps]; cbn [image_options].
  - constructor.
  - constructor; [now apply option_element_count|].
    induction Hps as [|q ps [Hqk Hqd] _ IH]; cbn [map]; constructor.
    + now apply option_element_count.
    + exact IH.
Qed.

(** Read as a string, the rendered form holds the tag [<option] exactly
    N + M times, as long as no key, display name or marker contains [<]. *)
Theorem options_form_option_count env st ps st1 :
  uses_declared_templates env ->
  profiles env st = (Ok ps, st1) ->
  (1 <= length ps)%nat ->
  lt_free (first_template env) = true ->
  Forall plain_profile ps ->
  Forall plain_image (group_image_list env) ->
  exists form,
    options_form env st = (Ok form, st1) /\
    count_occurrences option_tag form
    = (length ps + length (group_image_list env))%nat.
Proof.
  intros Htpl Hps Hlen Hm Hpp Hpi.
  eexists. split; [exact (options_form_rendered env st ps st1 Htpl Hps Hlen)|].
  destruct (concat_count _ (profile_options_count _ _ Hm Hpp)) as [Sp Cp].
  destruct (concat_count _ (image_options_count _ _ Hm Hpi)) as [Si Ci].
  rewrite profile_options_length in Cp. rewrite image_options_length in Ci.
  rewrite count_app by (vm_compute; reflexivity).
  rewrite count_app by assumption.
  rewrite count_app by (vm_compute; reflexivity).
  rewrite count_app by assumption.
  rewrite Cp, Ci.
  change (count_occurrences option_tag form_head) with 0%nat.
  change (count_occurrences option_tag form_middle) with 0%nat.
  change (count_occurrences option_tag form_tail) with 0%nat.
  lia.
Qed.

(** * Further properties of the controller *)

Lemma dict_set_set {V} (k : string) (v1 v2 : V) (d : dict_of V) :
  dict_set k v2 (dict_set k v1 d) = dict_set k v2 d.
Proof.
  induction d as [|[k0 v0] d IH]; simpl.
  - now rewrite String.eqb_refl.
  - destruct (String.eqb k0 k) eqn:E; simpl.
    + now rewrite String.eqb_refl.
    + now rewrite E, IH.
Qed.

Lemma find_app_l (f : profile -> bool) (l1 l2 : list profile) p :
  find f l1 = Some p -> find f (l1 ++ l2) = Some p.
Proof.
  induction l1 as [|q l1 IH]; simpl; [discriminate|].
  destruct (f q); [trivial | exact IH].
Qed.

Lemma find_app_r (f : profile -> bool) (l1 l2 : list profile) :
  find f l1 = None -> find f (l1 ++ l2) = find f l2.
Proof.
  induction l1 as [|q l1 IH]; simpl; [trivial|].
  destruct (f q); [discriminate | exact IH].
Qed.

(** A readable registry is readable from every state, and always starts
    with the static entries. *)
Lemma profiles_ok_static env st ps st1 st' :
  profiles env st = (Ok ps, st1) ->
  exists found extra,
    profiles env st'
    = (Ok (default_profiles env ++ found)%list, grow extra st').
Proof.
  rewrite !profiles_outcome. unfold registry_outcome.
  destruct (_jupyterhub_docker_tags env) as [[|tag tags]|e].
  - intros _. exists [], []. now rewrite grow_nil, app_nil_r.
  - destruct (_nvidia_args env) as [nv|e]; [|discriminate].
    intros _. eexists _, _. reflexivity.
  - discriminate.
Qed.

Lemma profiles_with_fields env a b st :
  profiles env (with_fields a b st)
  = (fst (profiles env st), with_fields a b (snd (profiles env st))).
Proof.
  rewrite !profiles_outcome. unfold registry_outcome.
  destruct (_jupyterhub_docker_tags env) as [[|tag tags]|e];
    [reflexivity | | reflexivity].
  destruct (_nvidia_args env) as [nv|e]; reflexivity.
Qed.

(** [get_state] puts the two fields into the parent's mapping, over
    whatever the parent stored under these keys, and keeps every other
    entry of the parent. *)
Theorem get_state_keeps_parent_entries super_state st :
  exists state,
    get_state super_state st = (Ok state, st) /\
    dict_get "profile" state = Some (VStr (child_profile st)) /\
    dict_get "dockerImage" state = Some (VStr (profile_image st)) /\
    forall k, k <> "profile" -> k <> "dockerImage" ->
      dict_get k state = dict_get k super_state.
Proof.
  eexists. split; [apply get_state_eq|]. split; [|split].
  - rewrite dict_get_set_ne by discriminate. apply dict_get_set_eq.
  - apply dict_get_set_eq.
  - intros k Hp Hi.
    rewrite dict_get_set_ne by congruence.
    now rewrite dict_get_set_ne by congruence.
Qed.

(** Whatever its outcome, resolution leaves the two persisted fields
    alone and keeps every dictionary of the store, with all its entries
    except possibly the one under [image]. *)
Theorem select_profile_keeps_options env profile image st :
  child_profile (snd (select_profile env profile image st)) = child_profile st
  /\ profile_image (snd (select_profile env profile image st))
     = profile_image st
  /\ forall (r : ref) (d : dict), heap st !! r = Some d ->
       exists d',
         heap (snd (select_profile env profile image st)) !! r = Some d' /\
         forall k, k <> "image" -> dict_get k d' = dict_get k d.
Proof.
  rewrite select_profile_unfold.
  destruct (profiles env st) as [[ps|e] st1] eqn:Hps;
    destruct (profiles_grows _ _ _ _ Hps) as [extra ->].
  - rewrite loop_find.
    destruct (find _ ps) as [p|]; cbn [snd].
    + split; [reflexivity|]. split; [reflexivity|].
      intros r d Hr. unfold selected. cbn [heap grow].
      destruct (decide (p_options p = r)) as [->|Hne].
      * rewrite list_lookup_alter_eq, (lookup_app_l_Some _ _ _ _ Hr).
        eexists. split; [reflexivity|].
        intros k Hk. apply dict_get_set_ne. congruence.
      * rewrite list_lookup_alter_ne by assumption.
        rewrite (lookup_app_l_Some _ _ _ _ Hr). eauto.
    + split; [reflexivity|]. split; [reflexivity|].
      intros r d Hr. exists d. split; [now apply grow_lookup | trivial].
  - cbn [snd]. split; [reflexivity|]. split; [reflexivity|].
    intros r d Hr. exists d. split; [now apply grow_lookup | trivial].
Qed.

(** Selecting a static profile again, with another image, overwrites the
    image in place: the mapping ends as if only the second selection had
    been made. *)
Theorem select_profile_again env profile image1 image2 st ps st1 p d :
  profiles env st = (Ok ps, st1) ->
  find (fun q => String.eqb (p_key q) profile) (default_profiles env)
  = Some p ->
  heap st !! p_options p = Some d ->
  exists st2 st3,
    select_profile env profile image1 st = (Ok tt, st2) /\
    select_profile env profile image2 st2 = (Ok tt, st3) /\
    child_class st3 = p_class p /\
    child_config st3 = p_options p /\
    heap st3 !! p_options p = Some (dict_set "image" (VStr image2) d).
Proof.
  intros Hps Hfind Hd.
  destruct (profiles_ok_static env st ps st1 st Hps)
    as (found & extra & Hread).
  pose (st2 := selected p image1 (grow extra st)).
  destruct (profiles_ok_static env st ps st1 st2 Hps)
    as (found' & extra' & Hread').
  exists st2, (selected p image2 (grow extra' st2)).
  split; [|split; [|split; [|split]]].
  - rewrite select_profile_unfold, Hread, loop_find.
    now rewrite (find_app_l _ _ found p Hfind).
  - rewrite select_profile_unfold, Hread', loop_find.
    now rewrite (find_app_l _ _ found' p Hfind).
  - reflexivity.
  - reflexivity.
  - unfold selected at 1. cbn [heap grow].
    rewrite list_lookup_alter_eq.
    assert (Hmid : heap st2 !! p_options p
                   = Some (dict_set "image" (VStr image1) d)).
    { unfold st2, selected. cbn [heap grow].
      now rewrite list_lookup_alter_eq, (lookup_app_l_Some _ _ _ _ Hd). }
    rewrite (lookup_app_l_Some _ _ _ _ Hmid). cbn [fmap option_fmap option_map].
    now rewrite dict_set_set.
Qed.

Lemma select_profile_again_witness :
  exists st2 st3,
    select_profile example_environment "docker-img1" "img1" example_spawner
    = (Ok tt, st2) /\
    select_profile example_environment "docker-img1" "img2" st2
    = (Ok tt, st3) /\
    heap st3 !! 1%nat
    = Some [("container_image", VStr "img1"); ("image", VStr "img2")].
Proof.
  assert (Hps :
    profiles example_environment example_spawner
    = (Ok (default_profiles example_environment), example_spawner))
    by (vm_compute; reflexivity).
  destruct (select_profile_again example_environment "docker-img1"
              "img1" "img2" example_spawner
              (default_profiles example_environment) example_spawner
              (mkProfile "GPU box" "docker-img1"
                 (SpawnerClass "ContainerBackend") 1)
              [("container_image", VStr "img1")]
              Hps eq_refl eq_refl)
    as (st2 & st3 & H1 & H2 & _ & _ & H3).
  exists st2, st3. repeat split; assumption.
Defined.

Lemma get_state_entries super_state st :
  exists state,
    get_state super_state st = (Ok state, st) /\
    dict_get "profile" state = Some (VStr (child_profile st)) /\
    dict_get "dockerImage" state = Some (VStr (profile_image st)).
Proof.
  eexists. split; [apply get_state_eq|]. split.
  - rewrite dict_get_set_ne by discriminate. apply dict_get_set_eq.
  - apply dict_get_set_eq.
Qed.

(** Restoring what [get_state] saved resolves again: the restoring spawner
    ends with the saved pair, with the class of the first registry entry
    under the saved key as child class, and with that entry's option
    mapping, image included, as child configuration. *)
Theorem restore_resolves_again env super_state st st' ps st1 p d :
  profiles env st' = (Ok ps, st1) ->
  find (fun q => String.eqb (p_key q) (child_profile st)) ps = Some p ->
  heap st1 !! p_options p = Some d ->
  exists state st2,
    get_state super_state st = (Ok state, st) /\
    load_child_class env state st' = (Ok tt, st2) /\
    child_profile st2 = child_profile st /\
    profile_image st2 = profile_image st /\
    child_class st2 = p_class p /\
    child_config st2 = p_options p /\
    heap st2 !! child_config st2
    = Some (dict_set "image" (VStr (profile_image st)) d).
Proof.
  intros Hps Hfind Hd.
  destruct (get_state_entries super_state st)
    as (state & Hget & Hp & Hi).
  exists state,
    (selected p (profile_image st)
       (with_fields (child_profile st) (profile_image st) st1)).
  split; [exact Hget|]. split.
  - rewrite (load_child_class_present env state st' _ _ Hp Hi).
    rewrite select_profile_unfold, profiles_with_fields, Hps. cbn [fst snd].
    rewrite loop_find. now rewrite Hfind.
  - repeat split. unfold selected. cbn [heap child_config with_fields].
    now rewrite list_lookup_alter_eq, Hd.
Qed.

Lemma restore_resolves_again_witness :
  exists state st2,
    get_state [("pid", VInt 7)]
      (with_fields "docker-img1" "img1" example_spawner)
    = (Ok state, with_fields "docker-img1" "img1" example_spawner) /\
    load_child_class example_environment state example_spawner
    = (Ok tt, st2) /\
    child_class st2 = SpawnerClass "ContainerBackend".
Proof.
  assert (Hps :
    profiles example_environment example_spawner
    = (Ok (default_profiles example_environment), example_spawner))
    by (vm_compute; reflexivity).
  destruct (restore_resolves_again example_environment [("pid", VInt 7)]
              (with_fields "docker-img1" "img1" example_spawner)
              example_spawner
              (default_profiles example_environment) example_spawner
              (mkProfile "GPU box" "docker-img1"
                 (SpawnerClass "ContainerBackend") 1)
              [("container_image", VStr "img1")]
              Hps eq_refl eq_refl)
    as (state & st2 & Hget & Hload & _ & _ & Hclass & _).
  exists state, st2. repeat split; assumption.
Defined.

(** A value that is not a string is not recovered from: restoring ends in
    [TraitError].  When it sits under [profile] nothing is written; when it
    sits under [dockerImage] the profile field has already taken the saved
    key, while the image field keeps its old value. *)
Theorem load_child_class_bad_value env state st v :
  (forall s, v <> VStr s) ->
  (dict_get "profile" state = Some v ->
   load_child_class env state st = (Raise TraitError, st)) /\
  (forall p,
     dict_get "profile" state = Some (VStr p) ->
     dict_get "dockerImage" state = Some v ->
     load_child_class env state st
     = (Raise TraitError, with_fields p (profile_image st) st)).
Proof.
  intros Hv. split.
  - intros Hp. rewrite load_child_class_unfold.
    unfold try_except_M, bind, lift, dict_getitem. rewrite Hp.
    destruct v; try reflexivity. now destruct (Hv s).
  - intros p Hp Hi. rewrite load_child_class_unfold.
    unfold try_except_M, bind, lift, dict_getitem. rewrite Hp.
    cbn [set_child_profile]. rewrite Hi.
    destruct v; try reflexivity. now destruct (Hv s).
Qed.

Lemma load_child_class_bad_value_witness :
  load_child_class example_environment
    [("profile", VStr "local"); ("dockerImage", VInt 5)] example_spawner
  = (Raise TraitError, with_fields "local" EmptyString example_spawner).
Proof.
  apply (proj2 (load_child_class_bad_value example_environment
                  [("profile", VStr "local"); ("dockerImage", VInt 5)]
                  example_spawner (VInt 5)
                  (fun s (H : VInt 5 = VStr s) =>
                     eq_ind (VInt 5)
                       (fun x => match x with VInt _ => True | _ => False end)
                       I (VStr s) H))
           "local" eq_refl eq_refl).
Defined.

(** [construct_child] takes the submitted pair from the user options (the
    empty string for an option that is missing), resolves it, and only then
    runs the parent's construction: from the state with the first matching
    entry installed or, when no entry matches, from the state with the
    child class and configuration it had before. *)
Theorem construct_child_installs_selection env user_options
    super_construct_child st p i ps st1 :
  dict_get_default "profile" (VStr EmptyString) user_options = VStr p ->
  dict_get_default "dockerImage" (VStr EmptyString) user_options = VStr i ->
  profiles env st = (Ok ps, st1) ->
  construct_child env user_options super_construct_child st
  = super_construct_child
      match find (fun q => String.eqb (p_key q) p) ps with
      | Some q => selected q i (with_fields p i st1)
      | None => with_fields p i st1
      end.
Proof.
  intros Hp Hi Hps. unfold construct_child.
  rewrite Hp, Hi. rewrite bind_eq. cbn [set_child_profile].
  rewrite bind_eq. cbn [set_profile_image].
  rewrite bind_eq. cbn [get_child_profile child_profile].
  rewrite bind_eq. cbn [get_profile_image profile_image].
  rewrite bind_eq. cbn [heap child_class child_config].
  change (mkSpawner (heap st) (child_class st) (child_config st) p i)
    with (with_fields p i st).
  rewrite select_profile_unfold, profiles_with_fields, Hps. cbn [fst snd].
  rewrite loop_find.
  now destruct (find _ ps).
Qed.

Lemma construct_child_installs_selection_witness :
  construct_child example_environment [("profile", VStr "docker-img1")]
    (ret tt) example_spawner
  = (Ok tt,
     selected (mkProfile "GPU box" "docker-img1"
                 (SpawnerClass "ContainerBackend") 1)
       EmptyString (with_fields "docker-img1" EmptyString example_spawner)).
Proof.
  assert (Hps :
    profiles example_environment example_spawner
    = (Ok (default_profiles example_environment), example_spawner))
    by (vm_compute; reflexivity).
  rewrite (construct_child_installs_selection example_environment
             [("profile", VStr "docker-img1")] (ret tt) example_spawner
             "docker-img1" EmptyString
             (default_profiles example_environment) example_spawner
             eq_refl eq_refl Hps).
  reflexivity.
Defined.

(** ** Discovered profiles *)

Lemma docker_key_eqb a b :
  String.eqb ("docker-" +:+ a) ("docker-" +:+ b) = String.eqb a b.
Proof. reflexivity. Qed.

Lemma find_discovered nv tags : forall base tag,
  In tag tags ->
  exists i : nat,
    tags !! i = Some tag /\
    find (fun q => String.eqb (p_key q) ("docker-" +:+ tag))
         (discovered nv tags base)
    = Some (docker_profile_at nv tag (base + i)).
Proof.
  induction tags as [|t tags IH]; intros base tag Hin; [destruct Hin|].
  cbn [discovered find p_key docker_profile_at].
  rewrite docker_key_eqb.
  destruct (String.eqb t tag) eqn:E.
  - apply String.eqb_eq in E. subst t. exists 0%nat.
    split; [reflexivity|]. now rewrite Nat.add_0_r.
  - destruct Hin as [->|Hin]; [now rewrite String.eqb_refl in E|].
    destruct (IH (S base) tag Hin) as (i & Hi & Hfind).
    exists (S i). split; [exact Hi|].
    rewrite Hfind. do 2 f_equal. lia.
Qed.

(** Selecting a discovered profile, under a key no static entry has, makes
    the child configuration a dictionary created by this very call (the
    tag's options with the image added) and changes no dictionary that
    existed before. *)
Theorem select_discovered_profile env imgs nv tag image st :
  docker env = DockerImported (Ok imgs) ->
  _nvidia_args env = Ok nv ->
  In tag (List.filter jupyterhub_docker_tag_re_match (concat imgs)) ->
  Forall (fun q => p_key q <> "docker-" +:+ tag) (default_profiles env) ->
  exists st2,
    select_profile env ("docker-" +:+ tag) image st = (Ok tt, st2) /\
    child_class st2 = SpawnerName "dockerspawner.SystemUserSpawner" /\
    (length (heap st) <= child_config st2)%nat /\
    heap st2 !! child_config st2
    = Some (dict_set "image" (VStr image) (docker_options env nv tag)) /\
    forall (r : ref) (d : dict),
      heap st !! r = Some d -> heap st2 !! r = Some d.
Proof.
  intros Hd Hnv Hin Hstatic.
  pose proof (profiles_with_docker env imgs nv st Hd Hnv) as Hps.
  cbv zeta in Hps.
  set (retained := List.filter jupyterhub_docker_tag_re_match (concat imgs))
    in *.
  destruct (find_discovered nv retained (length (heap st)) tag Hin)
    as (i & Hi & Hfind).
  exists (selected (docker_profile_at nv tag (length (heap st) + i)) image
            (grow (map (docker_options env nv) retained) st)).
  split; [|split; [|split; [|split]]].
  - rewrite select_profile_unfold, Hps, loop_find.
    rewrite find_app_r by (now apply find_no_match).
    now rewrite Hfind.
  - reflexivity.
  - cbn [child_config selected p_options docker_profile_at]. lia.
  - unfold selected.
    cbn [heap grow child_config p_options docker_profile_at].
    rewrite list_lookup_alter_eq.
    rewrite lookup_app_r by lia.
    replace (length (heap st) + i - length (heap st))%nat with i by lia.
    now rewrite (lookup_map _ _ _ _ Hi).
  - intros r d Hr. unfold selected.
    cbn [heap grow p_options docker_profile_at].
    pose proof (lookup_lt_Some _ _ _ Hr) as Hlt.
    rewrite list_lookup_alter_ne by lia.
    now apply lookup_app_l_Some.
Qed.

Lemma select_discovered_profile_witness :
  exists st2,
    select_profile duplicate_environment ("docker-" +:+ "gpu-jupyterhub")
      "img" duplicate_spawner = (Ok tt, st2) /\
    (4 <= child_config st2)%nat /\
    heap st2 !! child_config st2
    = Some (dict_set "image" (VStr "img")
              (docker_options duplicate_environment [] "gpu-jupyterhub")).
Proof.
  assert (Hin : In "gpu-jupyterhub"
                  (List.filter jupyterhub_docker_tag_re_match
                     (concat [["hub/jupyterhub"; "hub/other:latest"]; [];
                              ["gpu-jupyterhub"]])))
    by (vm_compute; tauto).
  assert (Hstatic : Forall (fun q => p_key q <> "docker-gpu-jupyterhub")
                      (default_profiles duplicate_environment))
    by (repeat constructor; discriminate).
  destruct (select_discovered_profile duplicate_environment _ []
              "gpu-jupyterhub" "img" duplicate_spawner
              eq_refl eq_refl Hin Hstatic)
    as (st2 & Hsel & _ & Hfresh & Hconfig & _).
  exists st2. split; [exact Hsel|]. split; [exact Hfresh | exact Hconfig].
Defined.

(** ** Reading the registry *)

(** With an empty registry the form is not rendered: marking the first
    profile record fails with [IndexError], although an empty image list
    is guarded. *)
Theorem options_form_empty_registry env st st1 :
  profiles env st = (Ok [], st1) ->
  options_form env st = (Raise IndexError, st1).
Proof.
  intros Hps. unfold options_form. rewrite bind_eq, Hps. reflexivity.
Qed.

Lemma options_form_empty_registry_witness :
  options_form empty_registry_environment declared_spawner
  = (Raise IndexError, declared_spawner).
Proof.
  assert (Hps : profiles empty_registry_environment declared_spawner
                = (Ok [], declared_spawner)) by (vm_compute; reflexivity).
  exact (options_form_empty_registry empty_registry_environment
           declared_spawner declared_spawner Hps).
Defined.

Lemma bind_lift_snd {A B} (r : result A) (k : A -> M B) st :
  (forall a, snd (k a st) = st) -> snd (bind (lift r) k st) = st.
Proof. intros Hk. unfold bind, lift. destruct r; [apply Hk | reflexivity]. Qed.

Lemma form_reads_like_registry env st :
  snd (options_form env st) = snd (profiles env st).
Proof.
  unfold options_form. rewrite bind_eq.
  destruct (profiles env st) as [[ps|e] st1]; [|reflexivity].
  cbn [snd]. apply bind_lift_snd. intros temp_keys.
  rewrite bind_eq.
  destruct (flat_map _ (groups env)) as [|r rs].
  - unfold ret at 1. apply bind_lift_snd. intros texts.
    apply bind_lift_snd. intros textsImages. reflexivity.
  - unfold lift at 1.
    destruct (mark_first _ (r :: rs)) as [temp_images|e]; [|reflexivity].
    apply bind_lift_snd. intros texts.
    apply bind_lift_snd. intros textsImages. reflexivity.
Qed.

Lemma submission_reads_like_registry env formdata st :
  snd (options_from_form env formdata st) = snd (profiles env st).
Proof.
  unfold options_from_form. rewrite bind_eq.
  destruct (profiles env st) as [[ps|e] st1]; [|reflexivity].
  cbn [snd]. apply bind_lift_snd. intros p0.
  apply bind_lift_snd. intros profile.
  apply bind_lift_snd. intros i0.
  apply bind_lift_snd. intros i01.
  apply bind_lift_snd. intros dockerImage. reflexivity.
Qed.

(** Rendering the form and reading a submission select nothing: whatever
    their outcome, the child class, the child configuration, the two
    persisted fields and every existing dictionary are as before. *)
Theorem rendering_selects_nothing env formdata st :
  (exists extra, snd (options_form env st) = grow extra st) /\
  (exists extra, snd (options_from_form env formdata st) = grow extra st).
Proof.
  rewrite form_reads_like_registry, submission_reads_like_registry.
  destruct (profiles env st) as [r st1] eqn:Hps.
  destruct (profiles_grows _ _ _ _ Hps) as [extra ->].
  split; exists extra; reflexivity.
Qed.

(** Only a missing package is translated.  An exception of the docker
    client itself leaves discovery and the registry read unchanged, except
    a [NameError], which is reported as the missing package too. *)
Theorem docker_client_error env e st :
  docker env = DockerImported (Raise e) ->
  let reported :=
    if is_NameError e then Exception_ docker_missing_message else e in
  _jupyterhub_docker_tags env = Raise reported /\
  profiles env st = (Raise reported, st).
Proof.
  intros Hd reported.
  assert (Htags : _jupyterhub_docker_tags env = Raise reported).
  { unfold _jupyterhub_docker_tags, reported. rewrite Hd.
    cbn [rbind try_except]. now destruct (is_NameError e). }
  split; [exact Htags|].
  rewrite profiles_outcome. unfold registry_outcome. now rewrite Htags.
Qed.

Lemma docker_client_error_witness :
  profiles
    (declared_environment
       (Raise (OtherError "DockerException")) (Raise URLError) [])
    declared_spawner
  = (Raise (OtherError "DockerException"), declared_spawner).
Proof.
  exact (proj2 (docker_client_error
                  (declared_environment
                     (Raise (OtherError "DockerException"))
                     (Raise URLError) [])
                  (OtherError "DockerException") declared_spawner eq_refl)).
Defined.

(** Only [URLError] is taken for a sidecar that is down.  Any other
    exception of the probe leaves [_nvidia_args], and it ends the registry
    read as soon as one image is discovered; with no discovered image the
    sidecar is not asked and the registry is the static list. *)
Theorem probe_error_breaks_discovery env e imgs st :
  sidecar env = Raise e ->
  is_URLError e = false ->
  docker env = DockerImported (Ok imgs) ->
  _nvidia_args env = Raise e /\
  profiles env st
  = match List.filter jupyterhub_docker_tag_re_match (concat imgs) with
    | [] => (Ok (default_profiles env), st)
    | _ :: _ => (Raise e, st)
    end.
Proof.
  intros Hs He Hd.
  assert (Hnv : _nvidia_args env = Raise e).
  { unfold _nvidia_args. rewrite Hs. cbn [rbind try_except]. now rewrite He. }
  split; [exact Hnv|].
  rewrite profiles_outcome. unfold registry_outcome, _jupyterhub_docker_tags.
  rewrite Hd. cbn [rbind try_except].
  destruct (List.filter _ (concat imgs)); [reflexivity|].
  now rewrite Hnv.
Qed.

Lemma probe_error_breaks_discovery_witness :
  profiles
    (declared_environment (Ok [["hub/jupyterhub"]])
       (Raise (OtherError "timeout")) [])
    declared_spawner
  = (Raise (OtherError "timeout"), declared_spawner).
Proof.
  destruct (probe_error_breaks_discovery
              (declared_environment (Ok [["hub/jupyterhub"]])
                 (Raise (OtherError "timeout")) [])
              (OtherError "timeout") [["hub/jupyterhub"]] declared_spawner
              eq_refl eq_refl eq_refl) as [_ Hps].
  vm_compute in Hps. vm_compute. exact Hps.
Defined.

(** ** The options of a discovered profile *)

Lemma dict_get_absent {V} (k : string) (d : dict_of V) :
  ~ List.In k (map fst d) -> dict_get k d = None.
Proof.
  induction d as [|[k0 v0] d IH]; simpl; intros Hno; [reflexivity|].
  destruct (String.eqb k0 k) eqn:E.
  - apply String.eqb_eq in E. tauto.
  - apply IH. tauto.
Qed.

Lemma dict_get_update {V} (k : string) (other : dict_of V) : forall d,
  List.NoDup (map fst other) ->
  dict_get k (dict_update d other)
  = match dict_get k other with
    | Some v => Some v
    | None => dict_get k d
    end.
Proof.
  unfold dict_update.
  induction other as [|[k0 v0] other IH]; intros d Hnd; simpl.
  - reflexivity.
  - inversion Hnd as [|? ? Hnotin Hnd']; subst.
    rewrite (IH _ Hnd').
    destruct (String.eqb k0 k) eqn:E.
    + apply String.eqb_eq in E. subst k0.
      rewrite (dict_get_absent k other Hnotin). apply dict_get_set_eq.
    + destruct (dict_get k other); [reflexivity|].
      apply dict_get_set_ne. now apply String.eqb_neq.
Qed.

(** The options of a discovered profile are built by two updates, so the
    probe's arguments win over the configured [docker_spawner_args], which
    win over the image and network name set by the code. *)
Theorem docker_profile_precedence env nvidia_args image st k :
  List.NoDup (map fst nvidia_args) ->
  List.NoDup (map fst (docker_spawner_args env)) ->
  exists p st' options,
    _docker_profile env nvidia_args image st = (Ok p, st') /\
    heap st' !! p_options p = Some options /\
    dict_get k options
    = match dict_get k nvidia_args with
      | Some v => Some v
      | None =>
          match dict_get k (docker_spawner_args env) with
          | Some v => Some v
          | None =>
              dict_get k [("container_image", VStr image);
                          ("network_name", VStr (user_name env))]
          end
      end.
Proof.
  intros Hnv Hconf. eexists _, _, _. rewrite docker_profile_eq.
  split; [reflexivity|]. split.
  - cbn [p_options docker_profile_at grow heap]. apply list_lookup_middle.
    reflexivity.
  - unfold docker_options.
    rewrite (dict_get_update k nvidia_args _ Hnv).
    now rewrite (dict_get_update k (docker_spawner_args env) _ Hconf).
Qed.

Lemma docker_profile_precedence_witness :
  exists p st' options,
    _docker_profile gpu_environment [] "hub/jupyterhub" declared_spawner
    = (Ok p, st') /\
    heap st' !! p_options p = Some options /\
    dict_get "network_name" options = Some (VStr "hubnet").
Proof.
  assert (Hconf : List.NoDup (map fst (docker_spawner_args gpu_environment))).
  { repeat constructor; simpl; intros H;
      repeat (destruct H as [H|H]; [discriminate|]); exact H. }
  destruct (docker_profile_precedence gpu_environment [] "hub/jupyterhub"
              declared_spawner "network_name" (List.NoDup_nil _) Hconf)
    as (p & st' & options & Hrun & Hopt & Hget).
  exists p, st', options. repeat split; assumption.
Defined.

(** ** The answer of the GPU sidecar *)

Lemma append_empty_r (s : string) : s +:+ EmptyString = s.
Proof.
  induction s as [|c s IH]; [reflexivity|].
  rewrite append_cons. now rewrite IH.
Qed.

Lemma append_associative (a b c : string) :
  (a +:+ b) +:+ c = a +:+ (b +:+ c).
Proof.
  induction a as [|x a IH]; [reflexivity|].
  rewrite !append_cons. now rewrite IH.
Qed.

Lemma split_colon_free (s : string) :
  colon_free s = true -> split_on ":" s = [s].
Proof.
  induction s as [|c s IH]; cbn [colon_free split_on]; [reflexivity|].
  intros H. apply andb_prop in H. destruct H as [Hc Hs].
  apply negb_true_iff in Hc. rewrite Hc, (IH Hs). reflexivity.
Qed.

Lemma split_at_colon (h s : string) :
  colon_free h = true ->
  split_on ":" (h +:+ String ":" s) = h :: split_on ":" s.
Proof.
  induction h as [|c h IH]; cbn [colon_free]; intros H.
  - reflexivity.
  - apply andb_prop in H. destruct H as [Hc Hh].
    apply negb_true_iff in Hc.
    rewrite append_cons. cbn [split_on]. rewrite Hc, (IH Hh). reflexivity.
Qed.

Lemma split_volume_text v :
  well_formed_volume v ->
  exists more,
    split_on ":" (volume_text v) = fst (fst v) :: snd (fst v) :: more.
Proof.
  destruct v as [[h c] rest]. unfold well_formed_volume, volume_text.
  cbn [fst snd]. intros (Hh & Hc & Hrest).
  change (h +:+ ":" +:+ c +:+ rest) with (h +:+ String ":" (c +:+ rest)).
  rewrite (split_at_colon h _ Hh).
  destruct Hrest as [->|[mode ->]].
  - rewrite append_empty_r, (split_colon_free c Hc). eauto.
  - change (c +:+ ":" +:+ mode) with (c +:+ String ":" mode).
    rewrite (split_at_colon c _ Hc). eauto.
Qed.

Lemma read_well_formed_volumes vs : forall d,
  Forall well_formed_volume vs ->
  fold_left
    (fun acc vol =>
       let? d := acc in
       let? parts := py_split_colon vol in
       let? host := seq_getitem parts 0 in
       let? parts' := py_split_colon vol in
       let? target := seq_getitem parts' 1 in
       Ok (dict_set host (VStr target) d))
    (map (fun v => VStr (volume_text v)) vs) (Ok d)
  = Ok (dict_update d (map volume_entry vs)).
Proof.
  induction vs as [|v vs IH]; intros d Hwf; [reflexivity|].
  inversion Hwf as [|? ? Hv Hvs]; subst.
  destruct (split_volume_text v Hv) as [more Hsplit].
  cbn [map fold_left]. cbn [rbind py_split_colon]. rewrite Hsplit.
  cbn [seq_getitem lookup list_lookup rbind].
  rewrite (IH _ Hvs). reflexivity.
Qed.

(** For a body with well-formed volumes ([host:target], possibly followed
    by a colon and a mode), a driver and devices, the probe returns the
    three GPU arguments: each host mapped to its target, the mode dropped;
    and a profile built from them is labelled "w/GPU". *)
Theorem nvidia_args_of_body env body vs driver devices image st :
  sidecar env = Ok (VDict body) ->
  dict_get "Volumes" body
  = Some (VList (map (fun v => VStr (volume_text v)) vs)) ->
  Forall well_formed_volume vs ->
  dict_get "VolumeDriver" body = Some driver ->
  dict_get "Devices" body = Some devices ->
  let args :=
    [("read_only_volumes", VDict (dict_update [] (map volume_entry vs)));
     ("extra_create_kwargs", VDict [("volume_driver", driver)]);
     ("extra_host_config", VDict [("devices", devices)])] in
  _nvidia_args env = Ok args /\
  p_display (docker_profile_at args image (length (heap st)))
  = "Docker: (w/GPU): " +:+ image /\
  fst (_docker_profile env args image st)
  = Ok (docker_profile_at args image (length (heap st))).
Proof.
  intros Hs Hvol Hwf Hdrv Hdev args.
  split; [|split; reflexivity].
  unfold _nvidia_args. rewrite Hs.
  cbn [rbind py_getitem_str]. unfold dict_getitem.
  rewrite Hvol. cbn [rbind py_iter]. unfold read_only_volumes.
  rewrite (read_well_formed_volumes vs [] Hwf). cbn [rbind].
  rewrite Hdrv, Hdev. reflexivity.
Qed.

Lemma nvidia_args_of_body_witness :
  _nvidia_args gpu_environment
  = Ok [("read_only_volumes",
         VDict [("nvidia_driver_352.68", VStr "/usr/local/nvidia")]);
        ("extra_create_kwargs",
         VDict [("volume_driver", VStr "nvidia-docker")]);
        ("extra_host_config",
         VDict [("devices",
                 VList [VStr "/dev/nvidiactl"; VStr "/dev/nvidia0"])])].
Proof.
  assert (Hwf : Forall well_formed_volume
                  [("nvidia_driver_352.68", "/usr/local/nvidia", ":ro")]).
  { constructor; [|constructor]. unfold well_formed_volume. cbn [fst snd].
    split; [reflexivity|]. split; [reflexivity|].
    right. exists "ro". reflexivity. }
  exact (proj1 (nvidia_args_of_body gpu_environment gpu_body
                  [("nvidia_driver_352.68", "/usr/local/nvidia", ":ro")]
                  (VStr "nvidia-docker")
                  (VList [VStr "/dev/nvidiactl"; VStr "/dev/nvidia0"])
                  "hub/jupyterhub" declared_spawner
                  eq_refl eq_refl Hwf eq_refl eq_refl)).
Defined.

Lemma split_nonempty (s : string) :
  exists w ws, split_on ":" s = w :: ws.
Proof.
  destruct s as [|c s]; cbn [split_on]; [eauto|].
  destruct (Ascii.eqb c ":"); [eauto|].
  destruct (split_on ":" s); eauto.
Qed.

Lemma split_with_colon (s : string) :
  colon_free s = false -> exists a b more, split_on ":" s = a :: b :: more.
Proof.
  induction s as [|c s IH]; cbn [colon_free split_on]; [discriminate|].
  destruct (Ascii.eqb c ":") eqn:Hc; cbn [negb andb].
  - intros _. destruct (split_nonempty s) as (w & ws & ->). eauto.
  - intros Hs. destruct (IH Hs) as (a & b & more & ->). eauto.
Qed.

Lemma read_volumes_after_raise e (vols : list pyval) :
  fold_left
    (fun acc vol =>
       let? d := acc in
       let? parts := py_split_colon vol in
       let? host := seq_getitem parts 0 in
       let? parts' := py_split_colon vol in
       let? target := seq_getitem parts' 1 in
       Ok (dict_set host (VStr target) d))
    vols (Raise e)
  = Raise e.
Proof. induction vols as [|v vols IH]; [reflexivity | exact IH]. Qed.

Lemma read_volume_without_colon (vols : list string) : forall d,
  Exists (fun s => colon_free s = true) vols ->
  fold_left
    (fun acc vol =>
       let? d := acc in
       let? parts := py_split_colon vol in
       let? host := seq_getitem parts 0 in
       let? parts' := py_split_colon vol in
       let? target := seq_getitem parts' 1 in
       Ok (dict_set host (VStr target) d))
    (map VStr vols) (Ok d)
  = Raise IndexError.
Proof.
  induction vols as [|s vols IH]; intros d Hbad;
    [inversion Hbad|].
  cbn [map fold_left]. cbn [rbind py_split_colon].
  destruct (colon_free s) eqn:Hs.
  - rewrite (split_colon_free s Hs).
    cbn [seq_getitem lookup list_lookup rbind].
    apply read_volumes_after_raise.
  - destruct (split_with_colon s Hs) as (a & b & more & ->).
    cbn [seq_getitem lookup list_lookup rbind].
    apply IH.
    inversion Hbad as [? ? Hhere|? ? Hlater]; subst;
      [congruence | exact Hlater].
Qed.

(** A volume without a colon is not recovered from: the probe ends in
    [IndexError], which is not the [URLError] it catches, and so does the
    registry read once an image is discovered. *)
Theorem nvidia_args_volume_without_colon env body vols :
  sidecar env = Ok (VDict body) ->
  dict_get "Volumes" body = Some (VList (map VStr vols)) ->
  Exists (fun s => colon_free s = true) vols ->
  _nvidia_args env = Raise IndexError /\
  forall imgs tag tags st,
    docker env = DockerImported (Ok imgs) ->
    List.filter jupyterhub_docker_tag_re_match (concat imgs) = tag :: tags ->
    profiles env st = (Raise IndexError, st).
Proof.
  intros Hs Hvol Hbad.
  assert (Hnv : _nvidia_args env = Raise IndexError).
  { unfold _nvidia_args. rewrite Hs.
    cbn [rbind py_getitem_str]. unfold dict_getitem.
    rewrite Hvol. cbn [rbind py_iter]. unfold read_only_volumes.
    now rewrite (read_volume_without_colon vols [] Hbad). }
  split; [exact Hnv|].
  intros imgs tag tags st Hd Htags.
  rewrite profiles_outcome. unfold registry_outcome, _jupyterhub_docker_tags.
  rewrite Hd. cbn [rbind try_except]. rewrite Htags. now rewrite Hnv.
Qed.

Lemma nvidia_args_volume_without_colon_witness :
  _nvidia_args
    (declared_environment (Ok [])
       (Ok (VDict [("Volumes", VList (map VStr ["a:b"; "nvidia_driver"]))]))
       [])
  = Raise IndexError.
Proof.
  assert (Hbad : Exists (fun s => colon_free s = true)
                   ["a:b"; "nvidia_driver"])
    by (apply Exists_cons_tl, Exists_cons_hd; reflexivity).
  exact (proj1 (nvidia_args_volume_without_colon
                  (declared_environment (Ok [])
                     (Ok (VDict [("Volumes",
                                  VList (map VStr ["a:b"; "nvidia_driver"]))]))
                     [])
                  [("Volumes", VList (map VStr ["a:b"; "nvidia_driver"]))]
                  ["a:b"; "nvidia_driver"] eq_refl eq_refl Hbad)).
Defined.

(** ** Which tags are retained *)

Lemma has_newline_app (a b : string) :
  has_newline (a +:+ b) = has_newline a || has_newline b.
Proof.
  induction a as [|c a IH]; [reflexivity|].
  rewrite append_cons. cbn [has_newline]. rewrite IH. apply orb_assoc.
Qed.

Lemma ends_with_refl (s : string) : ends_with s s = true.
Proof. destruct s; cbn [ends_with]; now rewrite String.eqb_refl. Qed.

Lemma ends_with_spec (suffix s : string) :
  ends_with suffix s = true <-> exists p, s = p +:+ suffix.
Proof.
  split.
  - induction s as [|c s IH]; cbn [ends_with]; intros H.
    + rewrite orb_false_r in H. apply String.eqb_eq in H.
      exists EmptyString. now subst.
    + apply orb_prop in H. destruct H as [H|H].
      * apply String.eqb_eq in H. exists EmptyString. now subst.
      * destruct (IH H) as [p ->]. exists (String c p). reflexivity.
  - intros [p ->]. induction p as [|c p IH].
    + apply ends_with_refl.
    + rewrite append_cons. cbn [ends_with]. rewrite IH. apply orb_true_r.
Qed.

Lemma strip_snoc (s : string) (c : ascii) :
  strip_final_newline (s +:+ String c EmptyString)
  = if Ascii.eqb c nl then s else s +:+ String c EmptyString.
Proof.
  induction s as [|a s IH]; [reflexivity|].
  rewrite append_cons.
  assert (Hstep :
    strip_final_newline (String a (s +:+ String c EmptyString))
    = String a (strip_final_newline (s +:+ String c EmptyString))).
  { destruct s; reflexivity. }
  rewrite Hstep, IH. now destruct (Ascii.eqb c nl).
Qed.

Lemma string_snoc (s : string) :
  s = EmptyString \/ exists s' c, s = s' +:+ String c EmptyString.
Proof.
  induction s as [|a s IH]; [now left|]. right.
  destruct IH as [->|(s' & c & ->)].
  - exists EmptyString, a. reflexivity.
  - exists (String a s'), c. reflexivity.
Qed.

Lemma strip_spec (s : string) :
  s = strip_final_newline s \/ s = strip_final_newline s +:+ newline.
Proof.
  destruct (string_snoc s) as [->|(s' & c & ->)]; [now left|].
  rewrite strip_snoc. destruct (Ascii.eqb c nl) eqn:E; [|now left].
  right. apply Ascii.eqb_eq in E. now subst c.
Qed.

(** A tag is retained exactly when it ends in [jupyterhub], or in
    [jupyterhub] and one final newline, and holds no newline before that:
    a tag with a version such as [jupyterhub:latest] is not. *)
Theorem retained_tags_end_in_jupyterhub (tag : string) :
  jupyterhub_docker_tag_re_match tag = true <->
  exists p,
    has_newline p = false /\
    (tag = p +:+ "jupyterhub" \/ tag = p +:+ "jupyterhub" +:+ newline).
Proof.
  unfold jupyterhub_docker_tag_re_match. split.
  - intros H. apply andb_prop in H. destruct H as [Hnl Hend].
    apply negb_true_iff in Hnl.
    apply ends_with_spec in Hend. destruct Hend as [p Hp].
    rewrite Hp, has_newline_app in Hnl.
    apply orb_false_elim in Hnl. destruct Hnl as [Hpnl _].
    exists p. split; [exact Hpnl|].
    destruct (strip_spec tag) as [Htag|Htag]; rewrite Hp in Htag.
    + now left.
    + right. now rewrite <- append_associative.
  - intros (p & Hpnl & [->| ->]).
    + change (p +:+ "jupyterhub")
        with (p +:+ ("jupyterhu" +:+ String "b" EmptyString)).
      rewrite <- append_associative, strip_snoc.
      change (Ascii.eqb "b" nl) with false. cbv iota.
      rewrite append_associative.
      change ("jupyterhu" +:+ String "b" EmptyString) with "jupyterhub".
      rewrite has_newline_app, Hpnl. cbn [orb].
      change (has_newline "jupyterhub") with false. cbn [negb andb].
      apply ends_with_spec. eauto.
    + rewrite <- append_associative.
      change newline with (String nl EmptyString).
      rewrite strip_snoc, Ascii.eqb_refl.
      rewrite has_newline_app, Hpnl. cbn [orb].
      change (has_newline "jupyterhub") with false. cbn [negb andb].
      apply ends_with_spec. eauto.
Qed.

(** ** The images offered *)

Lemma images_of_named_groups env imgs gs :
  Forall (fun g => g <> EmptyString) gs ->
  flat_map (images (with_default_profile_image imgs env)) gs
  = flat_map (images env) gs
  /\ flat_map (images env) gs
     = flat_map (fun g => dict_get_default g [] (group_images env)) gs.
Proof.
  induction 1 as [|g gs Hg _ [IH1 IH2]]; [split; reflexivity|].
  cbn [flat_map]. rewrite IH1, IH2. unfold images.
  apply String.eqb_neq in Hg. rewrite Hg. cbn [negb]. split; reflexivity.
Qed.

(** [default_profile_image] is offered only for a group whose name is the
    empty string.  For a user whose groups all have a name, the images are
    those that [group_images] lists for these groups (none for a user
    without groups), and the form is the same whatever
    [default_profile_image] holds. *)
Theorem default_images_need_empty_group env imgs st :
  Forall (fun g => g <> EmptyString) (groups env) ->
  group_image_list env
  = flat_map (fun g => dict_get_default g [] (group_images env)) (groups env)
  /\ options_form (with_default_profile_image imgs env) st
     = options_form env st.
Proof.
  intros Hnamed.
  destruct (images_of_named_groups env imgs (groups env) Hnamed) as [H1 H2].
  split; [exact H2|].
  unfold options_form.
  assert (Hrecords :
    flat_map
      (fun group =>
         map image_record (images (with_default_profile_image imgs env) group))
      (groups (with_default_profile_image imgs env))
    = flat_map (fun group => map image_record (images env group))
        (groups env)).
  { rewrite !flat_map_records. f_equal. exact H1. }
  rewrite Hrecords. reflexivity.
Qed.

Lemma default_images_need_empty_group_witness :
  group_image_list example_environment
  = [mkImage "base image group_a" "jupyterhub/singleuser"] /\
  options_form (with_default_profile_image [] example_environment)
    example_spawner
  = options_form example_environment example_spawner.
Proof.
  assert (Hnamed : Forall (fun g => g <> EmptyString)
                     (groups example_environment))
    by (repeat constructor; discriminate).
  destruct (default_images_need_empty_group example_environment []
              example_spawner Hnamed) as [Hlist Hform].
  split; [|exact Hform].
  rewrite Hlist. reflexivity.
Defined.

(** ** Option tags, whatever the names hold *)

Lemma options_form_option_count_witness :
  exists form,
    options_form example_environment example_spawner
    = (Ok form, example_spawner) /\
    count_occurrences option_tag form = 3%nat.
Proof.
  assert (Hps :
    profiles example_environment example_spawner
    = (Ok (default_profiles example_environment), example_spawner))
    by (vm_compute; reflexivity).
  assert (Hpp : Forall plain_profile (default_profiles example_environment))
    by (repeat constructor; reflexivity).
  assert (Hpi : Forall plain_image (group_image_list example_environment))
    by (repeat constructor; reflexivity).
  exact (options_form_option_count example_environment example_spawner
           (default_profiles example_environment) example_spawner
           (conj eq_refl (conj eq_refl eq_refl)) Hps (le_S 1 1 (le_n 1))
           eq_refl Hpp Hpi).
Defined.

Lemma starts_with_next c rest : forall needle u,
  char_in c needle = false ->
  starts_with needle (u +:+ String c rest) = starts_with needle u.
Proof.
  induction needle as [|a needle IH]; intros u Hc; [reflexivity|].
  cbn [char_in] in Hc. apply orb_false_elim in Hc. destruct Hc as [Hac Hc].
  destruct u as [|x u].
  - change (EmptyString +:+ String c rest) with (String c rest).
    cbn [starts_with]. now rewrite Hac.
  - rewrite append_cons. cbn [starts_with]. now rewrite IH.
Qed.

Lemma starts_with_cons a needle b s :
  starts_with (String a needle) (String b s)
  = Ascii.eqb a b && starts_with needle s.
Proof. reflexivity. Qed.

Lemma count_cons needle c s :
  count_occurrences needle (String c s)
  = ((if starts_with needle (String c s) then 1 else 0)
     + count_occurrences needle s)%nat.
Proof. reflexivity. Qed.

Lemma count_before c rest s :
  char_in c "option" = false ->
  count_occurrences option_tag (s +:+ String c rest)
  = (count_occurrences option_tag s
     + count_occurrences option_tag (String c rest))%nat.
Proof.
  intros Hc. induction s as [|x s IH]; [reflexivity|].
  rewrite append_cons, (count_cons _ x (s +:+ _)), (count_cons _ x s), IH.
  assert (E : starts_with option_tag (String x (s +:+ String c rest))
              = starts_with option_tag (String x s)).
  { change option_tag with (String "<" "option").
    rewrite !starts_with_cons. f_equal. now apply starts_with_next. }
  rewrite E. lia.
Qed.

Lemma option_element_count_verbatim k f d rest :
  count_occurrences option_tag (option_element k f d +:+ rest)
  = (1 + count_occurrences option_tag k + count_occurrences option_tag f
     + count_occurrences option_tag d
     + count_occurrences option_tag rest)%nat.
Proof.
  unfold option_element, newline, indent, dquote.
  rewrite !append_associative.
  rewrite (count_app option_tag (String nl EmptyString))
    by (vm_compute; reflexivity).
  rewrite (count_app option_tag "        ") by (vm_compute; reflexivity).
  rewrite (count_app option_tag "<option value=") by (vm_compute; reflexivity).
  rewrite (count_app option_tag (String "034" EmptyString))
    by (vm_compute; reflexivity).
  change (String "034" EmptyString
          +:+ " " +:+ f +:+ ">" +:+ d +:+ "</option>" +:+ rest)
    with (String "034" (" " +:+ f +:+ ">" +:+ d +:+ "</option>" +:+ rest)).
  rewrite (count_before "034" _ k) by reflexivity.
  change (">" +:+ d +:+ "</option>" +:+ rest)
    with (String ">" (d +:+ "</option>" +:+ rest)).
  change (String "034"
            (" " +:+ f +:+ String ">" (d +:+ "</option>" +:+ rest)))
    with (String "034" EmptyString
          +:+ " " +:+ f +:+ String ">" (d +:+ "</option>" +:+ rest)).
  rewrite (count_app option_tag (String "034" EmptyString))
    by (vm_compute; reflexivity).
  rewrite (count_app option_tag " ") by (vm_compute; reflexivity).
  rewrite (count_before ">" _ f) by reflexivity.
  change (String ">" (d +:+ "</option>" +:+ rest))
    with (">" +:+ d +:+ String "<" ("/option>" +:+ rest)).
  rewrite (count_app option_tag ">") by (vm_compute; reflexivity).
  rewrite (count_before "<" _ d) by reflexivity.
  change (String "<" ("/option>" +:+ rest)) with ("</option>" +:+ rest).
  rewrite (count_app option_tag "</option>") by (vm_compute; reflexivity).
  change (count_occurrences option_tag (String nl EmptyString)) with 0%nat.
  change (count_occurrences option_tag "        ") with 0%nat.
  change (count_occurrences option_tag "<option value=") with 1%nat.
  change (count_occurrences option_tag (String "034" EmptyString)) with 0%nat.
  change (count_occurrences option_tag " ") with 0%nat.
  change (count_occurrences option_tag ">") with 0%nat.
  change (count_occurrences option_tag "</option>") with 0%nat.
  lia.
Qed.

Lemma list_sum_cons a l : list_sum (a :: l) = (a + list_sum l)%nat.
Proof. reflexivity. Qed.

Lemma plain_elements_count {A} (k d : A -> string) (l : list A) rest :
  count_occurrences option_tag
    (concat_strings (map (fun q => option_element (k q) EmptyString (d q)) l)
     +:+ rest)
  = (length l
     + list_sum (map (fun q => (count_occurrences option_tag (k q)
                                + count_occurrences option_tag (d q))%nat) l)
     + count_occurrences option_tag rest)%nat.
Proof.
  induction l as [|q l IH]; [reflexivity|].
  cbn [map concat_strings length]. rewrite list_sum_cons.
  rewrite append_associative, option_element_count_verbatim, IH.
  change (count_occurrences option_tag EmptyString) with 0%nat. lia.
Qed.

Lemma profile_options_count_verbatim marker ps rest :
  count_occurrences option_tag
    (concat_strings (profile_options marker ps) +:+ rest)
  = (length ps + list_sum (map profile_name_tags ps)
     + marker_tags marker (length ps)
     + count_occurrences option_tag rest)%nat.
Proof.
  destruct ps as [|p ps]; [reflexivity|].
  cbn [profile_options concat_strings length map marker_tags].
  rewrite list_sum_cons.
  rewrite append_associative, option_element_count_verbatim.
  rewrite (plain_elements_count p_key p_display).
  unfold profile_name_tags at 1.
  change (map (fun q => (count_occurrences option_tag (p_key q)
                         + count_occurrences option_tag (p_display q))%nat) ps)
    with (map profile_name_tags ps).
  lia.
Qed.

Lemma image_options_count_verbatim marker imgs rest :
  count_occurrences option_tag
    (concat_strings (image_options marker imgs) +:+ rest)
  = (length imgs + list_sum (map image_name_tags imgs)
     + marker_tags marker (length imgs)
     + count_occurrences option_tag rest)%nat.
Proof.
  destruct imgs as [|p imgs]; [reflexivity|].
  cbn [image_options concat_strings length map marker_tags].
  rewrite list_sum_cons.
  rewrite append_associative, option_element_count_verbatim.
  rewrite (plain_elements_count i_reference i_display).
  unfold image_name_tags at 1.
  change (map (fun q => (count_occurrences option_tag (i_reference q)
                         + count_occurrences option_tag (i_display q))%nat)
              imgs)
    with (map image_name_tags imgs).
  lia.
Qed.


(** Names are written into the form as they are.  Under the declared
    templates the rendered form holds the tag [<option] once for each of
    the N + M option elements and once more for every occurrence inside a
    key, a display name, or the marker of a group that has an element: so
    never fewer than N + M times, and more when a name brings a tag of its
    own. *)
Theorem options_form_option_count_verbatim env st ps st1 :
  uses_declared_templates env ->
  profiles env st = (Ok ps, st1) ->
  (1 <= length ps)%nat ->
  exists form,
    options_form env st = (Ok form, st1) /\
    count_occurrences option_tag form
    = (length ps + length (group_image_list env)
       + list_sum (map profile_name_tags ps)
       + list_sum (map image_name_tags (group_image_list env))
       + marker_tags (first_template env) (length ps)
       + marker_tags (first_template env) (length (group_image_list env)))%nat
    /\
    (length ps + length (group_image_list env)
     <= count_occurrences option_tag form)%nat.
Proof.
  intros Htpl Hps Hlen.
  eexists. split; [exact (options_form_rendered env st ps st1 Htpl Hps Hlen)|].
  rewrite (count_app option_tag form_head) by (vm_compute; reflexivity).
  rewrite profile_options_count_verbatim.
  rewrite (count_app option_tag form_middle) by (vm_compute; reflexivity).
  rewrite image_options_count_verbatim.
  change (count_occurrences option_tag form_head) with 0%nat.
  change (count_occurrences option_tag form_middle) with 0%nat.
  change (count_occurrences option_tag form_tail) with 0%nat.
  split; lia.
Qed.

Lemma options_form_option_count_verbatim_witness :
  profiles tagged_name_environment example_spawner
  = (Ok (default_profiles tagged_name_environment), example_spawner) /\
  length (default_profiles tagged_name_environment) = 1%nat /\
  length (group_image_list tagged_name_environment) = 1%nat /\
  exists form,
    options_form tagged_name_environment example_spawner
    = (Ok form, example_spawner) /\
    count_occurrences option_tag form = 3%nat.
Proof.
  assert (Hps :
    profiles tagged_name_environment example_spawner
    = (Ok (default_profiles tagged_name_environment), example_spawner))
    by (vm_compute; reflexivity).
  split; [exact Hps|]. split; [reflexivity|]. split; [reflexivity|].
  destruct (options_form_option_count_verbatim tagged_name_environment
              example_spawner (default_profiles tagged_name_environment)
              example_spawner (conj eq_refl (conj eq_refl eq_refl)) Hps
              (le_n 1))
    as (form & Hform & Hcount & _).
  exists form. split; [exact Hform|].
  rewrite Hcount. vm_compute. reflexivity.
Defined.

(** ** Templates of one's own *)

Lemma format_brace_free (kw : dict_of string) (pre s : string) :
  brace_free pre = true ->
  format_from kw (pre +:+ s) None
  = let? r := format_from kw s None in Ok (pre +:+ r).
Proof.
  induction pre as [|c pre IH]; cbn [brace_free]; intros H.
  - change (EmptyString +:+ s) with s.
    destruct (format_from kw s None); reflexivity.
  - apply andb_prop in H. destruct H as [H Hpre].
    apply andb_prop in H. destruct H as [Hopen Hclose].
    apply negb_true_iff in Hopen. apply negb_true_iff in Hclose.
    rewrite append_cons. cbn [format_from]. rewrite Hopen, Hclose.
    rewrite (IH Hpre). destruct (format_from kw s None); reflexivity.
Qed.

(** The records of the images have no [type] field (those of the profiles
    do): an image template that uses [{type}] after plain text ends the
    rendering in [KeyError] as soon as the user has an image, while a
    profile template may use it. *)
Theorem image_template_without_type env st ps st1 i imgs pre post :
  input_template env = declared_option_template ->
  profiles env st = (Ok ps, st1) ->
  (1 <= length ps)%nat ->
  group_image_list env = i :: imgs ->
  brace_free pre = true ->
  input_image_template env = pre +:+ "{type}" +:+ post ->
  options_form env st = (Raise (KeyError (VStr "type")), st1) /\
  forall p,
    py_format (pre +:+ "{type}") (profile_record p)
    = Ok (pre +:+ str_of_type (p_class p)).
Proof.
  intros Hopt Hps Hlen Hgroup Hpre Himg. split.
  - destruct ps as [|p ps]; [simpl in Hlen; lia|].
    unfold options_form. rewrite bind_eq, Hps.
    cbn [map]. rewrite mark_first_cons.
    rewrite bind_eq. unfold lift at 1.
    rewrite flat_map_records. fold (group_image_list env).
    rewrite Hgroup, Hopt, Himg.
    cbn [map]. rewrite mark_first_cons.
    rewrite bind_eq. unfold lift at 1.
    rewrite bind_eq. unfold lift at 1. rewrite format_marked_profiles.
    rewrite bind_eq. unfold lift at 1.
    cbn [map_result]. unfold py_format at 1.
    rewrite (format_brace_free _ pre _ Hpre). reflexivity.
  - intros p. unfold py_format.
    rewrite (format_brace_free _ pre _ Hpre). cbn [rbind].
    change (format_from (profile_record p) "{type}" None)
      with (Ok (str_of_type (p_class p) +:+ EmptyString)).
    cbn [rbind]. now rewrite append_empty_r.
Qed.

Lemma image_template_without_type_witness :
  options_form typed_image_environment example_spawner
  = (Raise (KeyError (VStr "type")), example_spawner).
Proof.
  assert (Hps :
    profiles typed_image_environment example_spawner
    = (Ok (default_profiles example_environment), example_spawner))
    by (vm_compute; reflexivity).
  exact (proj1 (image_template_without_type typed_image_environment
                  example_spawner
                  (default_profiles example_environment) example_spawner
                  (mkImage "base image group_a" "jupyterhub/singleuser") []
                  "<option>" "</option>"
                  eq_refl Hps (le_S 1 1 (le_n 1)) eq_refl eq_refl eq_refl)).
Defined.
